(** * Frame synchronization and sequencing core of the mcmot pipeline

A shallow embedding of the Python sources under
[mcmot/framework/frame_synchronization] and
[mcmot/framework/frame_event/message_consumer_kafka.py], followed by
the properties established about them.

Conventions of the embedding:
- Python [float] timestamps are exact rationals ([Q]); wherever a
  result below depends on arithmetic over timestamps, the concrete
  inputs are dyadic rationals, on which binary floating point computes
  the same values.
- Python [int] is [Z].
- A Python [dict] that is iterated is an association list in insertion
  order; a [dict] that is only looked up, tested for membership and
  measured with [len] is a [gmap].
- A raised exception is the [Raise] case of [result].
- [time.time()] is an explicit argument [now]. *)

From Stdlib Require Import ZArith QArith Qabs Lia.
From stdpp Require Import base option list sorting gmap strings.

(** ** Python values shared by all components *)

Module Py.

Inductive exn : Set :=
| KeyError
| TypeError
| ZeroDivisionError
| ValueError
| AttributeError
| JSONDecodeError
| CallbackError.

Inductive result (A : Type) : Type :=
| Ok (a : A)
| Raise (e : exn).
Arguments Ok {A} a.
Arguments Raise {A} e.

Definition bind {A B : Type} (r : result A) (k : A → result B) : result B :=
  match r with
  | Ok a => k a
  | Raise e => Raise e
  end.

(** [a < b] and [a <= b] and [a == b] on floats. *)
Definition ltb (a b : Q) : bool := negb (Qle_bool b a).
Definition leb (a b : Q) : bool := Qle_bool a b.
Definition eqb (a b : Q) : bool := Qeq_bool a b.

(** [min(a, b)]: the first of the smallest. *)
Definition min2 (a b : Q) : Q := if ltb b a then b else a.

(** [int(x)] on a float: truncation toward zero. *)
Definition int (x : Q) : Z := Z.quot (Qnum x) (Z.pos (Qden x)).


(** [sorted(l, key=key)]: stable, ascending. *)
Section sorted.
Context {A : Type} (key : A → Q).

Fixpoint insert_by (x : A) (l : list A) : list A :=
  match l with
  | [] => [x]
  | y :: l' => if leb (key x) (key y) then x :: l else y :: insert_by x l'
  end.

Definition sorted (l : list A) : list A := foldr insert_by [] l.

End sorted.

(** [min(key(x) for x in l)]; [ValueError] on an empty sequence. *)
Definition min_of {A : Type} (key : A → Q) (l : list A) : result Q :=
  match l with
  | [] => Raise ValueError
  | x :: l' => Ok (foldl (λ m y, if ltb (key y) m then key y else m) (key x) l')
  end.

End Py.

(** ** The message envelope

The decoded JSON dictionary of a frame message.  [frame_metadata]
is kept by the two keys the core reads: [fps], always present, and
[frame_timestamp], which the envelope written by the capture stage
does not carry. *)

Record message : Type := mk_message {
  m_frame_number : Z;
  m_frame_timestamp : Q;
  m_metadata_fps : Z;
  m_metadata_timestamp : option Q;
  m_camera_id : string;
  m_frame : string
}.

(** The [message=...] keyword argument stored with a buffered frame. *)
Definition payload : Type := message.

(** ** FrameCache (frame_cache.py)

The per-camera instance: [self.cache] maps a frame timestamp to the
frame stored for it, in insertion order; [self.max_size] bounds it. *)

Module FrameCache.

Section per_camera.
Context {V : Type}.

Record t : Type := mk { cache : list (Q * V); max_size : Z }.

(** [FrameCache(max_size=1000)] *)
Definition init (max_size : Z) : t := mk [] max_size.
Definition default : t := init 1000.

(** [ts in self.cache] *)
Definition contains (ts : Q) (c : list (Q * V)) : bool :=
  existsb (λ kv, Py.eqb kv.1 ts) c.

(** [self.cache.pop(ts)] *)
Fixpoint pop (ts : Q) (c : list (Q * V)) : list (Q * V) :=
  match c with
  | [] => []
  | kv :: c' => if Py.eqb kv.1 ts then c' else kv :: pop ts c'
  end.

(** [self.cache.popitem()]: removes the pair inserted last. *)
Definition popitem (c : list (Q * V)) : list (Q * V) := removelast c.

Definition add_frame (frame_timestamp : Q) (frame_data : V) (fc : t) : t :=
  let c1 := if contains frame_timestamp (cache fc)
            then pop frame_timestamp (cache fc) else cache fc in
  let c2 := c1 ++ [(frame_timestamp, frame_data)] in
  let c3 := if negb (max_size fc =? 0)%Z
               && (max_size fc <? Z.of_nat (length c2))%Z
            then popitem c2 else c2 in
  mk c3 (max_size fc).

(** The [for ts, frame in self.cache.items()] loop with its [break]. *)
Fixpoint scan_before (frame_timestamp : Q) (c : list (Q * V)) : list (Q * V) :=
  match c with
  | [] => []
  | kv :: c' =>
      if Py.ltb kv.1 frame_timestamp
      then kv :: scan_before frame_timestamp c'
      else []
  end.

Definition get_and_remove_frames_before (frame_timestamp : Q) (fc : t)
  : list V * t :=
  let hits := scan_before frame_timestamp (cache fc) in
  let frames_to_return := hits.*2 in
  let keys_to_remove := hits.*1 in
  (frames_to_return,
   mk (foldl (λ c ts, pop ts c) (cache fc) keys_to_remove) (max_size fc)).

(** [frame['frame_timestamp']] of a stored frame. *)
Context (frame_timestamp_of : V → Q).

Definition get_and_remove_frames_between (from_timestamp to_timestamp : Q) (fc : t)
  : list V * t :=
  let '(frames, fc') := get_and_remove_frames_before to_timestamp fc in
  (List.filter (λ frame, Py.ltb from_timestamp (frame_timestamp_of frame)) frames,
   fc').

End per_camera.
Arguments t : clear implicits.

(** The top-level instance: [self.cache] maps a camera id to its
    per-camera instance. *)
Definition add_camera {V} (camera_id : string) (cs : gmap string (t V))
  : bool * gmap string (t V) :=
  match cs !! camera_id with
  | None => (true, <[camera_id := default]> cs)
  | Some _ => (false, cs)
  end.

Definition get_frame_cache {V} (camera_id : string) (cs : gmap string (t V))
  : option (t V) := cs !! camera_id.

End FrameCache.

(** ** Frame records buffered by the synchronizers

Both synchronizers buffer dictionaries with the keys below.  The key
[entry_time] may be absent, and [grouped] is absent, a [bool] or a
[float] depending on who wrote it. *)

Module Frame.

Inductive grouped_value : Type :=
| Absent
| Flag (b : bool)
| Stamp (ts : Q).

(** Truth value of [entry.get("grouped")]. *)
Definition truthy (g : grouped_value) : bool :=
  match g with
  | Absent => false
  | Flag b => b
  | Stamp ts => negb (Py.eqb ts 0)
  end.

(** The per-camera metadata dictionary; [delay] is written by the
    timestamp synchronizer only, and [additional_info] holds the
    [message] keyword argument when the caller passed one. *)
Record camera_data : Type := mk_camera_data {
  cd_frame_number : Z;
  cd_frame_timestamp : Q;
  cd_elapsed_time : Q;
  cd_delay : option Q;
  cd_additional_info : option payload
}.

Record t : Type := mk {
  frame_number : Z;
  frame_timestamp : Q;
  camera_id : string;
  data : camera_data;
  grouped : grouped_value;
  entry_time : option Q
}.

Definition set_grouped (g : grouped_value) (f : t) : t :=
  mk (frame_number f) (frame_timestamp f) (camera_id f) (data f) g (entry_time f).

Definition is_grouped (f : t) : bool := truthy (grouped f).

(** The buffer clean-up shared verbatim by both synchronizers:
    [[e for e in buf
       if not e.get("grouped")
          and (time.time() - e.get("entry_time")) <= retention_time]] *)
Fixpoint cleanup (now retention_time : Q) (buf : list t) : Py.result (list t) :=
  match buf with
  | [] => Py.Ok []
  | entry :: buf' =>
      if is_grouped entry then cleanup now retention_time buf'
      else
        match entry_time entry with
        | None => Py.Raise Py.TypeError
        | Some e =>
            Py.bind (cleanup now retention_time buf')
              (λ kept, Py.Ok (if Py.leb (now - e)%Q retention_time
                              then entry :: kept else kept))
        end
  end.

End Frame.

Definition group : Type := list Frame.t.

(** ** FrameSequencingService (frame_sequencing_service.py) *)

Module FrameSequencingService.

(** An entry of [frames_buffer] / [temp_buffer]. *)
Record entry : Type := mk_entry {
  e_frame_timestamp : Q;
  e_camera_id : string;
  e_entry_time : Q;
  e_message : payload
}.

Record t : Type := mk {
  duration : Q;
  temp_buffer : list entry;
  frames_buffer : list entry;
  grouped_frames_buffer : list group;
  last_sequence_time : Q
}.

Definition init (duration now : Q) : t := mk duration [] [] [] now.

(** [collect(frame_metadata, camera_id, message=...)]; the lookup
    [frame_metadata["frame_timestamp"]] raises when the key is absent. *)
Definition collect (now : Q) (frame_metadata_timestamp : option Q)
    (camera_id : string) (message : payload) (s : t) : Py.result t :=
  match frame_metadata_timestamp with
  | None => Py.Raise Py.KeyError
  | Some ts =>
      Py.Ok (mk (duration s) (temp_buffer s)
               (frames_buffer s ++ [mk_entry ts camera_id now message])
               (grouped_frames_buffer s) (last_sequence_time s))
  end.

Definition collect_group (g : group) (s : t) : t :=
  mk (duration s) (temp_buffer s) (frames_buffer s)
     (grouped_frames_buffer s ++ [g]) (last_sequence_time s).

Definition sequence (s : t) : t :=
  mk (duration s) (Py.sorted e_frame_timestamp (frames_buffer s)) []
     (grouped_frames_buffer s) (last_sequence_time s).

Definition next (s : t) : option payload * t :=
  match temp_buffer s with
  | [] => (None, s)
  | e :: rest =>
      (Some (e_message e),
       mk (duration s) rest (frames_buffer s)
          (grouped_frames_buffer s) (last_sequence_time s))
  end.

(** The drain loop [iter(lambda: next(), None)] of the consumer. *)
Definition drain (s : t) : list payload * t :=
  (e_message <$> temp_buffer s,
   mk (duration s) [] (frames_buffer s)
      (grouped_frames_buffer s) (last_sequence_time s)).

(** [sequence_groups]: it returns early while the duration has not
    elapsed; otherwise it re-acquires [self.lock], a non-reentrant
    [threading.Lock] it already holds, and never gets past that line. *)
Inductive outcome : Type :=
| Returned (s : t)
| Blocked.

Definition sequence_groups (now : Q) (s : t) : outcome :=
  if Py.ltb (now - last_sequence_time s)%Q (duration s)
  then Returned s
  else Blocked.

Definition next_group (s : t) : option group * t :=
  match grouped_frames_buffer s with
  | [] => (None, s)
  | g :: rest =>
      (Some g, mk (duration s) (temp_buffer s) (frames_buffer s) rest
                  (last_sequence_time s))
  end.

(** The loop
    [[msg = next_group()
      while msg: callback(msg); msg = next_group()]]
    returns the groups handed to the callback; it stops at an empty
    group, which is falsy. *)
Fixpoint drain_groups_from (gs : list group) : list group * list group :=
  match gs with
  | [] => ([], [])
  | [] :: rest => ([], rest)
  | g :: rest =>
      let '(out, rest') := drain_groups_from rest in (g :: out, rest')
  end.

Definition drain_groups (s : t) : list group * t :=
  let '(out, rest) := drain_groups_from (grouped_frames_buffer s) in
  (out, mk (duration s) (temp_buffer s) (frames_buffer s) rest
           (last_sequence_time s)).

End FrameSequencingService.

(** ** FrameSyncNumberService (frame_sync_number_service.py) *)

(** What a [synchronize] pass leaves behind: the groups handed to
    [callback.callback], the service afterwards, and the exception that
    ended the pass, if any. *)
Record pass (S : Type) : Type := mk_pass {
  delivered : list group;
  after : S;
  raised : option Py.exn
}.
Arguments mk_pass {S} _ _ _.
Arguments delivered {S} _.
Arguments after {S} _.
Arguments raised {S} _.

(** The first component of what [sampling] returns: an [int] number of
    frames or a [float] number of seconds. *)
Inductive amount : Type :=
| Frames (n : Z)
| Seconds (q : Q).

Module FrameSyncNumberService.

Record t : Type := mk {
  frame_seq : FrameSequencingService.t;
  initial_camera_data : gmap string Q;       (* camera_id -> start_time *)
  frames_buffer : list Frame.t;
  fps : Z;
  current_camera_data : gmap string Frame.camera_data;
  retention_time : Q
}.

(** [FrameSyncNumberService(config)] *)
Definition init (config_fps : Z) (config_retention_time backlog_check_interval now : Q) : t :=
  mk (FrameSequencingService.init backlog_check_interval now) ∅ [] config_fps ∅
     config_retention_time.

Definition collect (frame_number : Z) (frame_timestamp : Q) (fps_arg : Z)
    (camera_id : string) (message : option payload) (s : t) : t :=
  let fps' := if (fps s =? 0)%Z then fps_arg else fps s in
  let initial' :=
    match initial_camera_data s !! camera_id with
    | None => <[camera_id := frame_timestamp]> (initial_camera_data s)
    | Some _ => initial_camera_data s
    end in
  let start_time := default frame_timestamp (initial' !! camera_id) in
  let camera_data :=
    Frame.mk_camera_data frame_number frame_timestamp
      (frame_timestamp - start_time)%Q None message in
  mk (frame_seq s) initial'
     (frames_buffer s ++
        [Frame.mk frame_number frame_timestamp camera_id camera_data
           (Frame.Flag false) None])
     fps' (<[camera_id := camera_data]> (current_camera_data s))
     (retention_time s).

Definition expected_frame (s : t) (cd : Frame.camera_data) : Z :=
  Py.int (Frame.cd_elapsed_time cd * inject_Z (fps s))%Q.

Definition sampling (camera_id : string) (s : t) : Py.result (amount * bool) :=
  match current_camera_data s !! camera_id with
  | None => Py.Raise Py.KeyError
  | Some cd =>
      let skip_count := (expected_frame s cd - Frame.cd_frame_number cd)%Z in
      if (skip_count <? 0)%Z then
        if (fps s =? 0)%Z then Py.Raise Py.ZeroDivisionError
        else Py.Ok (Seconds (Qabs (inject_Z skip_count / inject_Z (fps s))%Q), false)
      else Py.Ok (Frames (Z.max skip_count 0), true)
  end.

(** [sorted({frame["frame_number"] for frame in buf})] *)
Fixpoint insert_number (n : Z) (l : list Z) : list Z :=
  match l with
  | [] => [n]
  | m :: l' =>
      if (n <? m)%Z then n :: l
      else if (n =? m)%Z then l
      else m :: insert_number n l'
  end.

Definition sorted_frame_numbers (buf : list Frame.t) : list Z :=
  foldr insert_number [] (Frame.frame_number <$> buf).

Definition has_number (n : Z) (f : Frame.t) : bool := (Frame.frame_number f =? n)%Z.

(** One iteration of [for frame_number in sorted(frame_numbers)]:
    [grouped_frames] is the local list of the method, [buf] the
    buffer whose members the iteration marks. *)
Definition group_step (cameras : nat)
    (acc : list group * list Frame.t) (n : Z) : list group * list Frame.t :=
  let '(grouped_frames, buf) := acc in
  let g := List.filter (has_number n) buf in
  if (length g =? cameras)%nat then
    (grouped_frames ++ [Frame.set_grouped (Frame.Flag true) <$> g],
     (λ f, if has_number n f then Frame.set_grouped (Frame.Flag true) f else f) <$> buf)
  else acc.

Definition grouping (s : t) : list group * list Frame.t :=
  foldl (group_step (size (initial_camera_data s))) ([], frames_buffer s)
    (sorted_frame_numbers (frames_buffer s)).

Definition synchronize (now : Q) (s : t) : pass t :=
  let '(grouped_frames, buf) := grouping s in
  let seq1 := FrameSequencingService.sequence (frame_seq s) in
  let '(out, seq2) := FrameSequencingService.drain_groups seq1 in
  match Frame.cleanup now (retention_time s) buf with
  | Py.Ok kept =>
      mk_pass out
        (mk seq2 (initial_camera_data s) kept (fps s) (current_camera_data s)
            (retention_time s))
        None
  | Py.Raise e =>
      mk_pass out
        (mk seq2 (initial_camera_data s) buf (fps s) (current_camera_data s)
            (retention_time s))
        (Some e)
  end.

End FrameSyncNumberService.

(** ** FrameSyncTimestampService (frame_sync_timestamp_service.py) *)

Module FrameSyncTimestampService.

Record t : Type := mk {
  frame_seq : FrameSequencingService.t;
  initial_camera_data : gmap string (Q * Q);   (* initial_delay, start_time *)
  current_camera_data : gmap string Frame.camera_data;
  frames_buffer : list Frame.t;
  fps : Z;
  retention_time : Q;
  latency_threshold : Q;
  tolerance : Q
}.

Definition init (config_fps : Z)
    (config_retention_time config_latency_threshold backlog_check_interval now : Q) : t :=
  mk (FrameSequencingService.init backlog_check_interval now) ∅ ∅ [] config_fps
     config_retention_time config_latency_threshold 0.

Definition collect (now : Q) (frame_number : Z) (frame_timestamp : Q) (fps_arg : Z)
    (camera_id : string) (message : option payload) (s : t) : Py.result t :=
  let fps' := if (fps s =? 0)%Z then fps_arg else fps s in
  Py.bind
    (if Py.eqb (tolerance s) 0
     then if (fps' =? 0)%Z then Py.Raise Py.ZeroDivisionError
          else Py.Ok (1 / inject_Z fps')%Q
     else Py.Ok (tolerance s))
    (λ tolerance',
      let initial' :=
        match initial_camera_data s !! camera_id with
        | None =>
            let initial_delay :=
              if Py.eqb (latency_threshold s) 0 then (now - frame_timestamp)%Q
              else Py.min2 (latency_threshold s) (now - frame_timestamp)%Q in
            <[camera_id := (initial_delay, now)]> (initial_camera_data s)
        | Some _ => initial_camera_data s
        end in
      let '(initial_delay, start_time) :=
        default (0%Q, now) (initial' !! camera_id) in
      let camera_data :=
        Frame.mk_camera_data frame_number frame_timestamp (now - start_time)%Q
          (Some (now - frame_timestamp - initial_delay)%Q) message in
      Py.Ok
        (mk (frame_seq s) initial'
            (<[camera_id := camera_data]> (current_camera_data s))
            (frames_buffer s ++
               [Frame.mk frame_number frame_timestamp camera_id camera_data
                  Frame.Absent (Some now)])
            fps' (retention_time s) (latency_threshold s) tolerance')).

Definition sampling (camera_id : string) (s : t) : Py.result (amount * bool) :=
  match initial_camera_data s !! camera_id with
  | None => Py.Raise Py.KeyError
  | Some _ =>
      match current_camera_data s !! camera_id ≫= Frame.cd_delay with
      | None => Py.Raise Py.KeyError
      | Some delay =>
          if Py.ltb delay 0 then Py.Ok (Seconds (Qabs delay), false)
          else Py.Ok (Frames (Z.max (Py.int (delay * inject_Z (fps s))%Q) 0), true)
      end
  end.

(** [abs(frame["frame_timestamp"] - item["frame_timestamp"]) <= self.tolerance] *)
Definition within_tolerance (s_tolerance : Q) (frame item : Frame.t) : bool :=
  Py.leb (Qabs (Frame.frame_timestamp frame - Frame.frame_timestamp item)%Q) s_tolerance.

Definition same_camera (frame f : Frame.t) : bool :=
  bool_decide (Frame.camera_id f = Frame.camera_id frame).

(** The inner loop [for frame in self.frames_buffer] for one [item].
    Buffer entries are paired with their position, which stands for
    the identity of the dictionary object.  [Some g] is the group at
    the [break]; [None] means the loop ran to its end. *)
Fixpoint scan (tol : Q) (cameras : nat) (item : Frame.t)
    (frames : list (nat * Frame.t)) (g : list (nat * Frame.t))
  : option (list (nat * Frame.t)) :=
  match frames with
  | [] => None
  | (j, frame) :: rest =>
      if Frame.is_grouped frame then scan tol cameras item rest g
      else if within_tolerance tol frame item then
        if existsb (λ f, same_camera frame f.2) g then scan tol cameras item rest g
        else
          let g' := g ++ [(j, frame)] in
          if (length g' =? cameras)%nat then Some g'
          else scan tol cameras item rest g'
      else scan tol cameras item rest g
  end.

Definition indexed (buf : list Frame.t) : list (nat * Frame.t) := imap pair buf.

Definition mark (stamp : Q) (buf : list Frame.t) (members : list nat) : list Frame.t :=
  foldl (λ b j, alter (Frame.set_grouped (Frame.Stamp stamp)) j b) buf members.

(** One iteration of the outer loop [for item in self.frames_buffer],
    at position [i]. *)
Definition outer_step (tol : Q) (cameras : nat)
    (acc : list Frame.t * FrameSequencingService.t) (i : nat)
  : list Frame.t * FrameSequencingService.t :=
  let '(buf, seq) := acc in
  match buf !! i with
  | None => acc
  | Some item =>
      if Frame.is_grouped item then acc
      else
        match scan tol cameras item (indexed buf) [(i, item)] with
        | None => acc
        | Some g =>
            let stamp := Frame.frame_timestamp item in
            (mark stamp buf g.*1,
             FrameSequencingService.collect_group
               (Frame.set_grouped (Frame.Stamp stamp) <$> g.*2) seq)
        end
  end.

Definition grouping (s : t) : list Frame.t * FrameSequencingService.t :=
  foldl (outer_step (tolerance s) (size (initial_camera_data s)))
    (frames_buffer s, frame_seq s) (seq 0 (length (frames_buffer s))).

Definition synchronize (now : Q) (s : t) : pass t :=
  let '(buf, seq0) := grouping s in
  let seq1 := FrameSequencingService.sequence seq0 in
  let '(out, seq2) := FrameSequencingService.drain_groups seq1 in
  let finish buf' e :=
    mk_pass out
      (mk seq2 (initial_camera_data s) (current_camera_data s) buf' (fps s)
          (retention_time s) (latency_threshold s) (tolerance s)) e in
  match Frame.cleanup now (retention_time s) buf with
  | Py.Ok kept => finish kept None
  | Py.Raise e => finish buf (Some e)
  end.

End FrameSyncTimestampService.

(** ** FrameSyncConfiguration and FrameSyncService
    (frame_sync_configuration.py, frame_sync_service.py) *)

Module FrameSyncConfiguration.

Inductive sync_type : Set := Timestamp | Number.

Record t : Type := mk {
  backlog_threshold : Z;
  backlog_check_interval : Q;
  frame_sync_type : option sync_type;
  fps : Z;
  retention_time : Q;
  latency_threshold : Q;
  ignore_initial_delay : bool;
  enable_sequencing : bool;
  seek_to_end : bool;
  unify : bool
}.


End FrameSyncConfiguration.

Module FrameSyncService.

Inductive t : Type :=
| ByNumber (s : FrameSyncNumberService.t)
| ByTimestamp (s : FrameSyncTimestampService.t).

Definition init (kind : FrameSyncConfiguration.sync_type)
    (config : FrameSyncConfiguration.t) (now : Q) : t :=
  match kind with
  | FrameSyncConfiguration.Number =>
      ByNumber
        (FrameSyncNumberService.init (FrameSyncConfiguration.fps config)
           (FrameSyncConfiguration.retention_time config)
           (FrameSyncConfiguration.backlog_check_interval config) now)
  | FrameSyncConfiguration.Timestamp =>
      ByTimestamp
        (FrameSyncTimestampService.init (FrameSyncConfiguration.fps config)
           (FrameSyncConfiguration.retention_time config)
           (FrameSyncConfiguration.latency_threshold config)
           (FrameSyncConfiguration.backlog_check_interval config) now)
  end.

Definition collect (now : Q) (frame_number : Z) (frame_timestamp : Q) (fps : Z)
    (camera_id : string) (message : option payload) (svc : t) : Py.result t :=
  match svc with
  | ByNumber s =>
      Py.Ok (ByNumber
               (FrameSyncNumberService.collect frame_number frame_timestamp fps
                  camera_id message s))
  | ByTimestamp s =>
      Py.bind
        (FrameSyncTimestampService.collect now frame_number frame_timestamp fps
           camera_id message s)
        (λ s', Py.Ok (ByTimestamp s'))
  end.

Definition sampling (camera_id : string) (svc : t) : Py.result (amount * bool) :=
  match svc with
  | ByNumber s => FrameSyncNumberService.sampling camera_id s
  | ByTimestamp s => FrameSyncTimestampService.sampling camera_id s
  end.

Definition synchronize (now : Q) (svc : t) : pass t :=
  match svc with
  | ByNumber s =>
      let p := FrameSyncNumberService.synchronize now s in
      mk_pass (delivered p) (ByNumber (after p)) (raised p)
  | ByTimestamp s =>
      let p := FrameSyncTimestampService.synchronize now s in
      mk_pass (delivered p) (ByTimestamp (after p)) (raised p)
  end.

End FrameSyncService.

(** ** MessageConsumer (message_consumer_kafka.py)

The topic is one partition holding a finite list of records.  The
consumer's position is the offset of the next record to fetch;
[commit()] stores the position as the committed offset and
[seek_to_end()] moves the position to the end offset.  A worker
started with [threading.Thread(...).start()] is run to completion at
the point where it is started, which is one of its schedules. *)

Module MessageConsumer.

Record record : Type := mk_record {
  r_key : option string;          (* [record.key.decode("utf-8")], if there is a key *)
  r_value : Py.result message;    (* what [json_deserializer] makes of the value *)
  r_time : Q                      (* [time.time()] while the record is handled *)
}.

Record t : Type := mk {
  key : option string;
  frame_sync_config : option FrameSyncConfiguration.t;
  callback_returns : message → bool    (* [false]: [callback.callback] raises *)
}.

Inductive event : Type :=
| Callback (m : message)
| SequencedCallback (m : message)
| GroupCallback (g : group)
| Commit (offset : nat)
| SeekToEnd (offset : nat)
| Sleep (seconds : Q)
| LogError (e : Py.exn)
| Close.

Record loop : Type := mk_loop {
  frame_synchronization : option FrameSyncService.t;
  frame_sequencing : option FrameSequencingService.t;
  actual_message_count : Z;
  skip_count : Q;
  backlog_time_prev : Q;
  seq_check_time : Q;
  seek_to_end : bool;
  position : nat;
  committed : nat;
  trace : list event
}.

Definition start_state (now : Q) : loop :=
  mk_loop None None 0 0 now now false 0 0 [].

(** How one pass through the body of the [for] loop ends. *)
Inductive ending : Type :=
| Committed                (* fell through to [self.consumer.commit()] at the bottom *)
| Filtered                 (* [continue] after the key check *)
| Skipped                  (* [continue] after [skip_count -= 1] *)
| SeekBreak                (* [break] after commit and seek to end *)
| Raised (e : Py.exn).

(** The loop body threads the local variables and may leave early. *)
Definition M (A : Type) : Type := loop → loop * (A + ending).

#[export] Instance M_ret : MRet M := λ A a st, (st, inl a).
#[export] Instance M_bind : MBind M := λ A B k m st,
  match m st with
  | (st', inl a) => k a st'
  | (st', inr e) => (st', inr e)
  end.

Definition get : M loop := λ st, (st, inl st).
Definition modify (f : loop → loop) : M unit := λ st, (f st, inl tt).
Definition leave {A} (e : ending) : M A := λ st, (st, inr e).
Definition lift {A} (r : Py.result A) : M A :=
  match r with
  | Py.Ok a => mret a
  | Py.Raise e => leave (Raised e)
  end.

Definition emit (e : event) : M unit :=
  modify (λ st, mk_loop (frame_synchronization st) (frame_sequencing st)
                  (actual_message_count st) (skip_count st) (backlog_time_prev st)
                  (seq_check_time st) (seek_to_end st) (position st) (committed st)
                  (trace st ++ [e])).
Definition set_frame_synchronization (v : option FrameSyncService.t) : M unit :=
  modify (λ st, mk_loop v (frame_sequencing st)
                  (actual_message_count st) (skip_count st) (backlog_time_prev st)
                  (seq_check_time st) (seek_to_end st) (position st) (committed st)
                  (trace st)).
Definition set_frame_sequencing (v : option FrameSequencingService.t) : M unit :=
  modify (λ st, mk_loop (frame_synchronization st) v
                  (actual_message_count st) (skip_count st) (backlog_time_prev st)
                  (seq_check_time st) (seek_to_end st) (position st) (committed st)
                  (trace st)).
Definition set_actual_message_count (v : Z) : M unit :=
  modify (λ st, mk_loop (frame_synchronization st) (frame_sequencing st)
                  v (skip_count st) (backlog_time_prev st)
                  (seq_check_time st) (seek_to_end st) (position st) (committed st)
                  (trace st)).
Definition set_skip_count (v : Q) : M unit :=
  modify (λ st, mk_loop (frame_synchronization st) (frame_sequencing st)
                  (actual_message_count st) v (backlog_time_prev st)
                  (seq_check_time st) (seek_to_end st) (position st) (committed st)
                  (trace st)).
Definition set_backlog_time_prev (v : Q) : M unit :=
  modify (λ st, mk_loop (frame_synchronization st) (frame_sequencing st)
                  (actual_message_count st) (skip_count st) v
                  (seq_check_time st) (seek_to_end st) (position st) (committed st)
                  (trace st)).
Definition set_seq_check_time (v : Q) : M unit :=
  modify (λ st, mk_loop (frame_synchronization st) (frame_sequencing st)
                  (actual_message_count st) (skip_count st) (backlog_time_prev st)
                  v (seek_to_end st) (position st) (committed st)
                  (trace st)).
Definition set_seek_to_end (v : bool) : M unit :=
  modify (λ st, mk_loop (frame_synchronization st) (frame_sequencing st)
                  (actual_message_count st) (skip_count st) (backlog_time_prev st)
                  (seq_check_time st) v (position st) (committed st)
                  (trace st)).
Definition set_position (v : nat) : M unit :=
  modify (λ st, mk_loop (frame_synchronization st) (frame_sequencing st)
                  (actual_message_count st) (skip_count st) (backlog_time_prev st)
                  (seq_check_time st) (seek_to_end st) v (committed st)
                  (trace st)).
Definition set_committed (v : nat) : M unit :=
  modify (λ st, mk_loop (frame_synchronization st) (frame_sequencing st)
                  (actual_message_count st) (skip_count st) (backlog_time_prev st)
                  (seq_check_time st) (seek_to_end st) (position st) v
                  (trace st)).

(** [self.consumer.commit()] and [self.consumer.seek_to_end()] *)
Definition consumer_commit : M unit :=
  st ← get; set_committed (position st);; emit (Commit (position st)).
Definition consumer_seek_to_end (end_offset : nat) : M unit :=
  set_position end_offset;; emit (SeekToEnd end_offset).

(** [check_key_condition(key, record)]: [key and key != record.key.decode()] *)
Definition check_key_condition (key : option string) (r : record) : Py.result bool :=
  match key with
  | None => Py.Ok false
  | Some k =>
      if bool_decide (k = "") then Py.Ok false
      else match r_key r with
           | None => Py.Raise Py.AttributeError
           | Some rk => Py.Ok (negb (bool_decide (k = rk)))
           end
  end.

Definition amount_value (a : amount) : Q :=
  match a with
  | Frames n => inject_Z n
  | Seconds q => q
  end.

(** [single_camera_synchronization(camera_id, frame_sync)] *)
Definition single_camera_synchronization (camera_id : string)
    (frame_sync : FrameSyncService.t) : M Q :=
  '(skip_or_wait, logic) ← lift (FrameSyncService.sampling camera_id frame_sync);
  if logic : bool then mret (amount_value skip_or_wait)
  else emit (Sleep (amount_value skip_or_wait));; mret 0%Q.

(** [a >= interval > 0] *)
Definition interval_elapsed (elapsed interval : Q) : bool :=
  Py.leb interval elapsed && Py.ltb 0 interval.

(** [calculate_backlog()] *)
Definition calculate_backlog (end_offset : nat) (st : loop) : Z :=
  Z.max (Z.of_nat end_offset - Z.of_nat (committed st)) 0.

(** The worker [frame_sync.synchronize(self.callback)]. *)
Definition synchronize_worker (now : Q) (frame_sync : FrameSyncService.t) : M unit :=
  let p := FrameSyncService.synchronize now frame_sync in
  set_frame_synchronization (Some (after p));;
  modify (λ st, mk_loop (frame_synchronization st) (frame_sequencing st)
                  (actual_message_count st) (skip_count st) (backlog_time_prev st)
                  (seq_check_time st) (seek_to_end st) (position st) (committed st)
                  (trace st ++ (GroupCallback <$> delivered p))).

(** [process_frame_synchronization(backlog_time_prev, frame_sync)] *)
Definition process_frame_synchronization (config : FrameSyncConfiguration.t)
    (now : Q) (end_offset : nat) (frame_sync : FrameSyncService.t) : M unit :=
  st ← get;
  if interval_elapsed (now - backlog_time_prev st)%Q
       (FrameSyncConfiguration.backlog_check_interval config)
  then
    set_backlog_time_prev now;;
    if FrameSyncConfiguration.unify config
    then synchronize_worker now frame_sync
    else mret tt
  else mret tt.

(** [process_cv_module(...)]: the counters and the callback; the
    throughput figures it logs are left out. *)
Definition process_cv_module (c : t) (message : message) : M unit :=
  st ← get;
  if callback_returns c message
  then emit (Callback message);;
       set_actual_message_count (actual_message_count st + 1)
  else leave (Raised Py.CallbackError).

(** The worker that sequences and drains: it stops at the first
    message whose callback raises. *)
Fixpoint drain_worker (c : t) (temp : list FrameSequencingService.entry)
  : list event * list FrameSequencingService.entry :=
  match temp with
  | [] => ([], [])
  | e :: rest =>
      let m := FrameSequencingService.e_message e in
      if callback_returns c m then
        let '(evs, rest') := drain_worker c rest in (SequencedCallback m :: evs, rest')
      else ([], rest)
  end.

Definition sequencing_worker (c : t) (seq : FrameSequencingService.t) : M unit :=
  let seq1 := FrameSequencingService.sequence seq in
  let '(evs, rest) := drain_worker c (FrameSequencingService.temp_buffer seq1) in
  set_frame_sequencing
    (Some (FrameSequencingService.mk (FrameSequencingService.duration seq1) rest
             (FrameSequencingService.frames_buffer seq1)
             (FrameSequencingService.grouped_frames_buffer seq1)
             (FrameSequencingService.last_sequence_time seq1)));;
  modify (λ st, mk_loop (frame_synchronization st) (frame_sequencing st)
                  (actual_message_count st) (skip_count st) (backlog_time_prev st)
                  (seq_check_time st) (seek_to_end st) (position st) (committed st)
                  (trace st ++ evs)).

(** The part of the body under [if frame_synchronization:], after the
    message went to the callback. *)
Definition synchronization_part (c : t) (now : Q) (end_offset : nat)
    (message : message) (frame_sync : FrameSyncService.t) : M unit :=
  match frame_sync_config c with
  | None => leave (Raised Py.AttributeError)
  | Some config =>
      st ← get;
      if FrameSyncConfiguration.ignore_initial_delay config && negb (seek_to_end st)
      then consumer_commit;; consumer_seek_to_end end_offset;;
           set_seek_to_end true;; leave SeekBreak
      else if FrameSyncConfiguration.seek_to_end config
      then consumer_commit;; consumer_seek_to_end end_offset;; leave SeekBreak
      else
        process_frame_synchronization config now end_offset frame_sync;;
        if negb (FrameSyncConfiguration.ignore_initial_delay config)
           && negb (FrameSyncConfiguration.unify config)
        then
          st ← get;
          skip ← single_camera_synchronization (m_camera_id message)
                   (default frame_sync (frame_synchronization st));
          set_skip_count skip
        else mret tt
  end.

(** The body of [for message_index, record in enumerate(self.consumer)]
    down to the commit in its last line. *)
Definition body (c : t) (end_offset : nat) (r : record) : M unit :=
  let now := r_time r in
  message ← lift (r_value r);
  st ← get;
  set_position (S (position st));;
  mismatch ← lift (check_key_condition (key c) r);
  if mismatch : bool then leave Filtered else
  st ← get;
  match frame_synchronization st, frame_sync_config c with
  | None, Some config =>
      match FrameSyncConfiguration.frame_sync_type config with
      | Some kind =>
          set_frame_synchronization (Some (FrameSyncService.init kind config now))
      | None => mret tt
      end
  | _, _ => mret tt
  end;;
  st ← get;
  match frame_synchronization st with
  | Some frame_sync =>
      if Py.eqb (skip_count st) 0 then
        frame_sync' ← lift (FrameSyncService.collect now (m_frame_number message)
                              (m_frame_timestamp message) (m_metadata_fps message)
                              (m_camera_id message) (Some message) frame_sync);
        set_frame_synchronization (Some frame_sync')
      else mret tt
  | None => mret tt
  end;;
  st ← get;
  match frame_sequencing st, frame_sync_config c with
  | None, Some config =>
      if FrameSyncConfiguration.enable_sequencing config
      then set_frame_sequencing
             (Some (FrameSequencingService.init
                      (FrameSyncConfiguration.backlog_check_interval config) now))
      else mret tt
  | _, _ => mret tt
  end;;
  st ← get;
  match frame_sequencing st with
  | Some seq =>
      seq' ← lift (FrameSequencingService.collect now (m_metadata_timestamp message)
                     (m_camera_id message) message seq);
      set_frame_sequencing (Some seq');;
      match frame_sync_config c with
      | None => leave (Raised Py.AttributeError)
      | Some config =>
          if interval_elapsed (now - seq_check_time st)%Q
               (FrameSyncConfiguration.backlog_check_interval config)
          then sequencing_worker c seq';; set_seq_check_time now
          else mret tt
      end
  | None =>
      (if Py.ltb 0 (skip_count st)
       then set_skip_count (skip_count st - 1)%Q;;
            set_actual_message_count (actual_message_count st + 1);;
            leave Skipped
       else mret tt);;
      (if match frame_sync_config c with
          | None => true
          | Some config => negb (FrameSyncConfiguration.unify config)
          end
       then process_cv_module c message
       else mret tt);;
      st ← get;
      match frame_synchronization st with
      | Some frame_sync => synchronization_part c now end_offset message frame_sync
      | None => mret tt
      end
  end;;
  consumer_commit.

Definition iteration (c : t) (end_offset : nat) (r : record) (st : loop)
  : loop * ending :=
  match body c end_offset r st with
  | (st', inl _) => (st', Committed)
  | (st', inr e) => (st', e)
  end.

(** Where [start] stands once the topic has nothing more to give:
    blocked in the receive, or left through [except]/[finally]. *)
Inductive status : Type :=
| Waiting
| Terminated (e : Py.exn).

(** [except Exception as e: logger.error(...); raise e] and
    [finally: self.stop()] *)
Definition except_finally (e : Py.exn) (st : loop) : loop :=
  mk_loop (frame_synchronization st) (frame_sequencing st)
    (actual_message_count st) (skip_count st) (backlog_time_prev st)
    (seq_check_time st) (seek_to_end st) (position st) (committed st)
    (trace st ++ [LogError e; Close]).

Fixpoint run (c : t) (pending : list record) (st : loop) : loop * status :=
  match pending with
  | [] => (st, Waiting)
  | r :: rest =>
      match iteration c (position st + length pending) r st with
      | (st', Raised e) => (except_finally e st', Terminated e)
      | (st', SeekBreak) => (st', Waiting)
      | (st', _) => run c rest st'
      end
  end.

Definition start (c : t) (now : Q) (topic : list record) : loop * status :=
  run c topic (start_state now).

End MessageConsumer.

(** ** Runs of the services and the scenarios used below *)

Module Run.

(** The calls a client makes on a number synchronizer, in order. *)
Inductive number_call : Type :=
| NCollect (frame_number : Z) (frame_timestamp : Q) (fps : Z)
    (camera_id : string) (message : option payload)
| NSynchronize (now : Q).

Definition number_step (s : FrameSyncNumberService.t) (c : number_call)
  : FrameSyncNumberService.t :=
  match c with
  | NCollect n ts fps cam msg => FrameSyncNumberService.collect n ts fps cam msg s
  | NSynchronize now => after (FrameSyncNumberService.synchronize now s)
  end.

Definition number_run (s0 : FrameSyncNumberService.t) (calls : list number_call)
  : FrameSyncNumberService.t :=
  foldl number_step s0 calls.

(** The same for a timestamp synchronizer; a [collect] that raises
    leaves the service as it was. *)
Inductive timestamp_call : Type :=
| TCollect (now : Q) (frame_number : Z) (frame_timestamp : Q) (fps : Z)
    (camera_id : string) (message : option payload)
| TSynchronize (now : Q).

Definition timestamp_step (s : FrameSyncTimestampService.t) (c : timestamp_call)
  : FrameSyncTimestampService.t :=
  match c with
  | TCollect now n ts fps cam msg =>
      match FrameSyncTimestampService.collect now n ts fps cam msg s with
      | Py.Ok s' => s'
      | Py.Raise _ => s
      end
  | TSynchronize now => after (FrameSyncTimestampService.synchronize now s)
  end.

Definition timestamp_run (s0 : FrameSyncTimestampService.t) (calls : list timestamp_call)
  : FrameSyncTimestampService.t :=
  foldl timestamp_step s0 calls.

(** The grouping key of a delivered group and the keys of a delivery. *)
Definition timestamp_key (g : group) : Py.result Q := Py.min_of Frame.frame_timestamp g.

Fixpoint non_decreasing (keys : list Q) : bool :=
  match keys with
  | k1 :: ((k2 :: _) as rest) => Py.leb k1 k2 && non_decreasing rest
  | _ => true
  end.

Definition keys_of (gs : list group) : list Q :=
  omap (λ g, match timestamp_key g with Py.Ok k => Some k | Py.Raise _ => None end) gs.

(** A delivered group as the cameras and frame numbers it holds. *)
Definition members (g : group) : list (string * Z) :=
  (λ f, (Frame.camera_id f, Frame.frame_number f)) <$> g.

End Run.

Module Scenario.

(** A per-camera cache of capacity two, full. *)
Definition full_cache : FrameCache.t string :=
  FrameCache.add_frame 2 "r2" (FrameCache.add_frame 1 "r1" (FrameCache.init 2)).

(** A default cache in which timestamp 1 was inserted, then 2, then 1
    again. *)
Definition reinserted_cache : FrameCache.t string :=
  FrameCache.add_frame 1 "r1'"
    (FrameCache.add_frame 2 "r2" (FrameCache.add_frame 1 "r1" FrameCache.default)).

Definition frame_message (camera_id : string) (frame_number : Z) (frame_timestamp : Q)
    (fps : Z) : message :=
  mk_message frame_number frame_timestamp fps None camera_id "jpeg".

(** A sequencer that collected two frames, the later one first. *)
Definition sequencer_with_two : FrameSequencingService.t :=
  let s0 := FrameSequencingService.init 0 0 in
  let add ts (r : Py.result FrameSequencingService.t) :=
    Py.bind r (FrameSequencingService.collect 0 (Some ts) "A" (frame_message "A" 1 ts 30)) in
  match add 1%Q (add 2%Q (Py.Ok s0)) with
  | Py.Ok s => s
  | Py.Raise _ => s0
  end.

(** E1: two cameras in lockstep, fps 30. *)
Definition lockstep_calls : list Run.number_call :=
  [Run.NCollect 1 1 30 "A" None;
   Run.NCollect 1 (101 # 100) 30 "B" None;
   Run.NCollect 2 (103 # 100) 30 "A" None;
   Run.NCollect 2 (104 # 100) 30 "B" None].

Definition number_service : FrameSyncNumberService.t :=
  FrameSyncNumberService.init 30 60 0 0.

Definition lockstep : FrameSyncNumberService.t :=
  Run.number_run number_service lockstep_calls.

(** E5: camera A starts at time 0 and then reports frame 45 at time 1. *)
Definition rate_control : FrameSyncNumberService.t :=
  Run.number_run number_service
    [Run.NCollect 1 0 30 "A" None; Run.NCollect 45 1 30 "A" None].



(** Three cameras at fps 4 (tolerance 0.25); B and C are each 0.25 away
    from A, on either side. *)
Definition straddle : FrameSyncTimestampService.t :=
  Run.timestamp_run (FrameSyncTimestampService.init 4 60 60 0 0)
    [Run.TCollect 10 1 1 4 "A" None;
     Run.TCollect 10 1 (3 # 4) 4 "B" None;
     Run.TCollect 10 1 (5 # 4) 4 "C" None].

(** Three cameras at fps 8 (tolerance 0.125), each delivering its two
    frames in order.  The first frames are stamped 1, 1.125 and 1.25,
    the second frames all 2. *)
Definition staggered : FrameSyncTimestampService.t :=
  Run.timestamp_run (FrameSyncTimestampService.init 8 60 60 0 0)
    [Run.TCollect 10 1 1 8 "A" None;
     Run.TCollect 10 2 2 8 "A" None;
     Run.TCollect 10 1 (9 # 8) 8 "B" None;
     Run.TCollect 10 2 2 8 "B" None;
     Run.TCollect 10 1 (5 # 4) 8 "C" None;
     Run.TCollect 10 2 2 8 "C" None].

End Scenario.


(** ** Predicates used in the statements *)

Definition no_entry_time (f : Frame.t) : Prop := Frame.entry_time f = None.

(** What holds of a number synchronizer however it was used: its
    sequencer holds no group, and no buffered frame has an
    [entry_time]. *)
Definition number_inv (s : FrameSyncNumberService.t) : Prop :=
  FrameSequencingService.grouped_frames_buffer (FrameSyncNumberService.frame_seq s) = []
  ∧ Forall no_entry_time (FrameSyncNumberService.frames_buffer s).

Definition timestamp_distance (f1 f2 : Frame.t) : Q :=
  Qabs (Frame.frame_timestamp f1 - Frame.frame_timestamp f2).

(** A group whose members behind the first, the anchor, are each within
    the tolerance of the anchor. *)
Definition anchored (tol : Q) (g : group) : Prop :=
  ∃ item rest,
    g = item :: rest ∧ rest ≠ []
    ∧ Forall (λ f, (timestamp_distance f item <= tol)%Q) rest.

Module ConsumerScenario.



Definition frame_record (frame_number : Z) (frame_timestamp : Q) : MessageConsumer.record :=
  MessageConsumer.mk_record (Some "A")
    (Py.Ok (Scenario.frame_message "A" frame_number frame_timestamp 1)) frame_timestamp.





End ConsumerScenario.

(** ** Sequences of cache operations and the tracker's capture callback *)

Module CacheRun.

(** [add_frame] called for each pair in turn. *)
Definition add_all {V} (adds : list (Q * V)) (fc : FrameCache.t V) : FrameCache.t V :=
  foldl (λ fc kv, FrameCache.add_frame kv.1 kv.2 fc) fc adds.

(** No two entries of a dictionary have equal keys. *)
Fixpoint keys_distinct {V} (c : list (Q * V)) : bool :=
  match c with
  | [] => true
  | kv :: c' => negb (FrameCache.contains kv.1 c') && keys_distinct c'
  end.

(** [TrackerCaptureCallback.callback(message)] (tracker_capture_callback.py):
    [add_camera(camera_id)], then [add_frame] on the camera's cache under
    the message's own [frame_timestamp]. *)
Definition capture_callback (m : message) (cs : gmap string (FrameCache.t message))
  : gmap string (FrameCache.t message) :=
  let cs' := (FrameCache.add_camera (m_camera_id m) cs).2 in
  match FrameCache.get_frame_cache (m_camera_id m) cs' with
  | Some fc => <[m_camera_id m := FrameCache.add_frame (m_frame_timestamp m) m fc]> cs'
  | None => cs'
  end.

Definition capture_all (ms : list message) (cs : gmap string (FrameCache.t message))
  : gmap string (FrameCache.t message) :=
  foldl (λ cs m, capture_callback m cs) cs ms.

End CacheRun.

(** ** Runs of a sequencer *)

Module SequencerRun.

(** Repeated [next()] until it returns [None], as the consumer's drain
    worker calls it. *)
Fixpoint next_until_none (fuel : nat) (s : FrameSequencingService.t)
  : list payload * FrameSequencingService.t :=
  match fuel with
  | O => ([], s)
  | S fuel' =>
      match FrameSequencingService.next s with
      | (None, s') => ([], s')
      | (Some m, s') =>
          let '(ms, s'') := next_until_none fuel' s' in (m :: ms, s'')
      end
  end.

(** The calls a client makes on a sequencer. *)
Inductive call : Type :=
| Collect (now : Q) (frame_metadata_timestamp : option Q) (camera_id : string)
    (message : payload)
| CollectGroup (g : group)
| Sequence
| Next
| SequenceGroups (now : Q)
| NextGroup.

(** What a run has produced so far: the service, the groups submitted
    with [collect_group], the groups [next_group] returned, and whether
    a call is stuck on the lock, in which case every later call waits
    for that lock and completes nothing. *)
Record progress : Type := mk_progress {
  service : FrameSequencingService.t;
  submitted : list group;
  returned : list group;
  stuck : bool
}.

Definition step (p : progress) (c : call) : progress :=
  if stuck p then p
  else
    let s := service p in
    match c with
    | Collect now ts cam msg =>
        match FrameSequencingService.collect now ts cam msg s with
        | Py.Ok s' => mk_progress s' (submitted p) (returned p) false
        | Py.Raise _ => p
        end
    | CollectGroup g =>
        mk_progress (FrameSequencingService.collect_group g s)
          (submitted p ++ [g]) (returned p) false
    | Sequence =>
        mk_progress (FrameSequencingService.sequence s) (submitted p) (returned p) false
    | Next =>
        mk_progress (FrameSequencingService.next s).2 (submitted p) (returned p) false
    | SequenceGroups now =>
        match FrameSequencingService.sequence_groups now s with
        | FrameSequencingService.Returned s' =>
            mk_progress s' (submitted p) (returned p) false
        | FrameSequencingService.Blocked =>
            mk_progress s (submitted p) (returned p) true
        end
    | NextGroup =>
        match FrameSequencingService.next_group s with
        | (Some g, s') => mk_progress s' (submitted p) (returned p ++ [g]) false
        | (None, s') => mk_progress s' (submitted p) (returned p) false
        end
    end.

Definition run (duration now : Q) (calls : list call) : progress :=
  foldl step (mk_progress (FrameSequencingService.init duration now) [] [] false) calls.

End SequencerRun.

(** ** What a run of the number synchronizer has collected *)

Module NumberHistory.

(** The frames collected for one camera, in order. *)
Definition collected (camera_id : string) (calls : list Run.number_call)
  : list (Z * Q * option payload) :=
  omap (λ c, match c with
             | Run.NCollect n ts _ cam msg =>
                 if bool_decide (cam = camera_id) then Some (n, ts, msg) else None
             | Run.NSynchronize _ => None
             end) calls.

(** The fps values the collected messages reported, in order. *)
Definition reported_fps (calls : list Run.number_call) : list Z :=
  omap (λ c, match c with
             | Run.NCollect _ _ fps _ _ => Some fps
             | Run.NSynchronize _ => None
             end) calls.

Definition first_nonzero (l : list Z) : Z :=
  default 0%Z (head (List.filter (λ z, negb (z =? 0)%Z) l)).

(** How many buffered frames bear a frame number. *)
Definition count_number (n : Z) (buf : list Frame.t) : nat :=
  length (List.filter (FrameSyncNumberService.has_number n) buf).

End NumberHistory.

(** ** FrameSyncParameters and FrameSyncMapper
    (frame_sync_parameters.py, frame_sync_mapper.py) *)


Module FrameSyncParameters.

(** The attributes; [ordering_key] and [state_store_path] are [None]
    when the argument was not a string, in which case the constructor
    stores a [ValueError] object in the attribute without raising
    it. *)
Record t : Type := mk {
  sync_window_ms : Z;
  max_buffer_size : Z;
  buffer_timeout : Z;
  retry_attempts : Z;
  retry_backoff_ms : Z;
  ordering_key : option string;
  latency_threshold_ms : Z;
  parallel_threads : Z;
  discard_policy : string;
  checkpoint_interval_ms : Z;
  state_store_path : option string
}.

(** The defaults of [__init__]. *)
Definition default : t :=
  mk 100 500 60000 5 1000 (Some "timestamp") 5000 4 "discard_oldest" 10000
     (Some "/tmp/frame_synchronizer_state").

Definition _validate_positive_int (value : Z) : Py.result Z :=
  if (value <=? 0)%Z then Py.Raise Py.ValueError else Py.Ok value.

Definition _validate_enum (value : string) (valid_values : list string) : Py.result string :=
  if bool_decide (value ∈ valid_values) then Py.Ok value else Py.Raise Py.ValueError.

(** [FrameSyncParameters(...)] on the given arguments. *)
Definition init (args : t) : Py.result t :=
  Py.bind (_validate_positive_int (sync_window_ms args)) (λ sync_window_ms,
  Py.bind (_validate_positive_int (max_buffer_size args)) (λ max_buffer_size,
  Py.bind (_validate_positive_int (buffer_timeout args)) (λ buffer_timeout,
  Py.bind (_validate_positive_int (retry_attempts args)) (λ retry_attempts,
  Py.bind (_validate_positive_int (retry_backoff_ms args)) (λ retry_backoff_ms,
  Py.bind (_validate_positive_int (latency_threshold_ms args)) (λ latency_threshold_ms,
  Py.bind (_validate_positive_int (parallel_threads args)) (λ parallel_threads,
  Py.bind (_validate_enum (discard_policy args)
             ["discard_oldest"; "discard_newest"; "allow_partial"]) (λ discard_policy,
  Py.bind (_validate_positive_int (checkpoint_interval_ms args)) (λ checkpoint_interval_ms,
  Py.Ok (mk sync_window_ms max_buffer_size buffer_timeout retry_attempts
            retry_backoff_ms (ordering_key args) latency_threshold_ms parallel_threads
            discard_policy checkpoint_interval_ms (state_store_path args))))))))))).

End FrameSyncParameters.

Module FrameSyncMapper.



End FrameSyncMapper.

(** ** Further predicates used in the statements *)

(** What holds of every cache the capture callback fills for a camera:
    the default capacity, respected; one entry per timestamp; every
    entry stored under its own message's [frame_timestamp], for a
    message of that camera. *)
Definition capture_cache_ok (camera_id : string) (fc : FrameCache.t message) : Prop :=
  FrameCache.max_size fc = 1000%Z
  ∧ (length (FrameCache.cache fc) <= 1000)%nat
  ∧ CacheRun.keys_distinct (FrameCache.cache fc) = true
  ∧ Forall (λ kv, kv.1 = m_frame_timestamp kv.2 ∧ m_camera_id kv.2 = camera_id)
      (FrameCache.cache fc).

(** The order [sorted(..., key=...)] sorts by. *)
Definition key_le {A} (key : A → Q) (a b : A) : Prop := (key a <= key b)%Q.

(** The marks of the number synchronizer after the frame numbers [seen]
    have been gone through: a frame is marked when its number was seen
    and as many buffered frames bear that number as there are
    cameras. *)
Definition marked_after (cameras : nat) (buf : list Frame.t) (seen : list Z) (f : Frame.t)
  : Frame.t :=
  if existsb (λ n, FrameSyncNumberService.has_number n f) seen
     && (NumberHistory.count_number (Frame.frame_number f) buf =? cameras)%nat
  then Frame.set_grouped (Frame.Flag true) f else f.




(** Either nothing has been collected yet, or the fps and the
    tolerance of the timestamp synchronizer are settled. *)
Definition tolerance_settled (config_fps : Z) (s : FrameSyncTimestampService.t) : Prop :=
  (FrameSyncTimestampService.initial_camera_data s = ∅
   ∧ FrameSyncTimestampService.tolerance s = 0%Q
   ∧ FrameSyncTimestampService.frames_buffer s = []
   ∧ FrameSyncTimestampService.fps s = config_fps)
  ∨ (FrameSyncTimestampService.initial_camera_data s ≠ ∅
     ∧ FrameSyncTimestampService.fps s ≠ 0%Z
     ∧ FrameSyncTimestampService.tolerance s
       = (1 / inject_Z (FrameSyncTimestampService.fps s))%Q).


(** The events of a pass that only sequences. *)
Definition sequencing_event (ev : MessageConsumer.event) : Prop :=
  match ev with
  | MessageConsumer.SequencedCallback _ | MessageConsumer.Commit _ => True
  | _ => False
  end.

(** ** A consumer that sequences *)

Module SequencingScenario.

(** The configuration the mapper makes of the default parameters, its
    numbers written in lowest terms. *)
Definition config : FrameSyncConfiguration.t :=
  FrameSyncConfiguration.mk 500 10 (Some FrameSyncConfiguration.Timestamp) 0 60 5
    true true false false.

Definition consumer : MessageConsumer.t :=
  MessageConsumer.mk None (Some config) (λ _, true).

(** A record whose frame metadata carries a timestamp. *)
Definition stamped_record : MessageConsumer.record :=
  MessageConsumer.mk_record (Some "A")
    (Py.Ok (mk_message 1 0 30 (Some 0%Q) "A" "jpeg")) 0.

End SequencingScenario.

(** The events of a pass under [unify]. *)
Definition unify_event (ev : MessageConsumer.event) : Prop :=
  match ev with
  | MessageConsumer.GroupCallback _ | MessageConsumer.Commit _
  | MessageConsumer.SeekToEnd _ => True
  | _ => False
  end.

(** ** A consumer that unifies *)

Module UnifyScenario.

(** [unify] set, no synchronization type, nothing else switched on. *)
Definition config : FrameSyncConfiguration.t :=
  FrameSyncConfiguration.mk 0 0 None 0 60 60 false false false true.

Definition consumer : MessageConsumer.t :=
  MessageConsumer.mk None (Some config) (λ _, true).

End UnifyScenario.

(** * Properties *)

(** ** Comparisons and sorting *)

Lemma ltb_lt (a b : Q) : Py.ltb a b = true ↔ (a < b)%Q.
Proof.
  unfold Py.ltb. rewrite negb_true_iff, <- not_true_iff_false, Qle_bool_iff.
  split; [apply Qnot_le_lt | apply Qlt_not_le].
Qed.

Lemma leb_le (a b : Q) : Py.leb a b = true ↔ (a <= b)%Q.
Proof. apply Qle_bool_iff. Qed.

Lemma eqb_refl (a : Q) : Py.eqb a a = true.
Proof. apply Qeq_bool_iff. reflexivity. Qed.

Lemma sorted_nil_inv {A} (key : A → Q) (l : list A) : Py.sorted key l = [] → l = [].
Proof.
  destruct l as [|x l]; [done|]. simpl.
  destruct (Py.sorted key l) as [|y l']; simpl; [done|].
  by destruct (Py.leb (key x) (key y)).
Qed.

Lemma forallb_true_Forall {A} (f : A → bool) (l : list A) :
  forallb f l = true ↔ Forall (λ x, f x = true) l.
Proof.
  induction l as [|x l IH]; simpl; [by split; [constructor|]|].
  by rewrite andb_true_iff, Forall_cons, IH.
Qed.


(** ** FrameCache *)

Section frame_cache.
Context {V : Type}.
Implicit Types (c : list (Q * V)) (fc : FrameCache.t V).

(** Popping the keys of a prefix, front to back, removes that prefix. *)
Lemma pop_prefix (hits rest : list (Q * V)) :
  foldl (λ c ts, FrameCache.pop ts c) (hits ++ rest) hits.*1 = rest.
Proof.
  induction hits as [|[k v] hits IH]; simpl; [done|].
  by rewrite eqb_refl.
Qed.

Lemma scan_before_prefix (t : Q) c :
  ∃ rest, c = FrameCache.scan_before t c ++ rest
          ∧ match rest with
            | [] => True
            | kv :: _ => Py.ltb kv.1 t = false
            end.
Proof.
  induction c as [|kv c IH]; simpl.
  - by exists [].
  - destruct (Py.ltb kv.1 t) eqn:Hlt.
    + destruct IH as (rest & Hc & Hrest). exists rest. split; [|done].
      simpl. by rewrite <- Hc.
    + exists (kv :: c). by rewrite Hlt.
Qed.

(** What [get_and_remove_frames_before] does on every cache: it takes
    the longest front run of entries below the threshold, and nothing
    behind the first entry at or above it. *)
Lemma get_and_remove_frames_before_prefix (t : Q) fc :
  ∃ hits rest,
    FrameCache.cache fc = hits ++ rest
    ∧ Forall (λ kv, (kv.1 < t)%Q) hits
    ∧ match rest with [] => True | kv :: _ => ¬ (kv.1 < t)%Q end
    ∧ FrameCache.get_and_remove_frames_before t fc
      = (hits.*2, FrameCache.mk rest (FrameCache.max_size fc)).
Proof.
  destruct (scan_before_prefix t (FrameCache.cache fc)) as (rest & Hc & Hrest).
  exists (FrameCache.scan_before t (FrameCache.cache fc)), rest.
  split_and!; [done| | |].
  - clear. induction (FrameCache.cache fc) as [|kv c IH]; simpl; [constructor|].
    destruct (Py.ltb kv.1 t) eqn:Hlt; constructor; [by apply ltb_lt|done].
  - destruct rest as [|kv rest]; [done|].
    intros Hlt%ltb_lt. congruence.
  - unfold FrameCache.get_and_remove_frames_before. f_equal. f_equal.
    rewrite Hc at 1. apply pop_prefix.
Qed.

(** On a cache at capacity a new key does not stay: [popitem()] takes
    the pair just inserted and the cache is what it was. *)
Lemma add_frame_at_capacity (t : Q) (r : V) fc :
  FrameCache.contains t (FrameCache.cache fc) = false →
  (0 < FrameCache.max_size fc)%Z →
  Z.of_nat (length (FrameCache.cache fc)) = FrameCache.max_size fc →
  FrameCache.add_frame t r fc = fc.
Proof.
  intros Hnew Hpos Hfull. unfold FrameCache.add_frame. rewrite Hnew.
  rewrite length_app. simpl.
  destruct (Z.eqb_spec (FrameCache.max_size fc) 0) as [|_]; [lia|]. simpl.
  destruct (Z.ltb_spec (FrameCache.max_size fc)
              (Z.of_nat (length (FrameCache.cache fc) + 1))) as [_|]; [|lia].
  unfold FrameCache.popitem. rewrite removelast_last. by destruct fc.
Qed.

(** Re-inserting a present key below or at capacity: the entry moves to
    the back with the new frame, and nothing else leaves. *)
Lemma add_frame_reinsert (t : Q) (r' : V) fc :
  FrameCache.contains t (FrameCache.cache fc) = true →
  (Z.of_nat (length (FrameCache.cache fc)) <= FrameCache.max_size fc)%Z →
  FrameCache.cache (FrameCache.add_frame t r' fc)
  = FrameCache.pop t (FrameCache.cache fc) ++ [(t, r')].
Proof.
  intros Hin Hsize. unfold FrameCache.add_frame. rewrite Hin. simpl.
  assert (S (length (FrameCache.pop t (FrameCache.cache fc)))
          = length (FrameCache.cache fc)) as Hlen.
  { clear Hsize. induction (FrameCache.cache fc) as [|kv c IH]; simpl in *; [done|].
    destruct (Py.eqb kv.1 t); simpl in *; [done|]. by rewrite IH. }
  rewrite length_app. simpl.
  destruct (Z.ltb_spec (FrameCache.max_size fc)
              (Z.of_nat (length (FrameCache.pop t (FrameCache.cache fc)) + 1)));
    [lia|]. by rewrite andb_false_r.
Qed.

(** When the entries are in ascending order of timestamp, the front run
    is all there is below the threshold: the extraction is exact. *)
Lemma get_and_remove_frames_before_sorted (t : Q) fc :
  StronglySorted (λ a b : Q * V, (a.1 < b.1)%Q) (FrameCache.cache fc) →
  FrameCache.get_and_remove_frames_before t fc
  = ((List.filter (λ kv, Py.ltb kv.1 t) (FrameCache.cache fc)).*2,
     FrameCache.mk (List.filter (λ kv, negb (Py.ltb kv.1 t)) (FrameCache.cache fc))
       (FrameCache.max_size fc)).
Proof.
  intros Hsorted.
  destruct (get_and_remove_frames_before_prefix t fc)
    as (hits & rest & Hc & Hhits & Hrest & ->).
  rewrite Hc in Hsorted |- *. clear Hc.
  assert (Forall (λ kv : Q * V, Py.ltb kv.1 t = false) rest) as Hge.
  { apply StronglySorted_app_1_r in Hsorted.
    destruct rest as [|kv rest]; [constructor|].
    apply StronglySorted_inv in Hsorted as [_ Hlater].
    assert (Py.ltb kv.1 t = false) as Hkv.
    { apply not_true_iff_false. by intros ?%ltb_lt. }
    constructor; [done|].
    eapply Forall_impl; [exact Hlater|]. intros kv' Hlt. simpl in Hlt.
    apply not_true_iff_false. intros Hlt'%ltb_lt.
    apply Hrest. by eapply Qlt_trans. }
  clear Hsorted Hrest.
  assert (List.filter (λ kv : Q * V, Py.ltb kv.1 t) (hits ++ rest) = hits) as ->.
  { induction Hhits as [|kv hits Hkv _ IH]; simpl.
    - induction Hge as [|kv rest Hkv _ IH]; simpl; [done|]. by rewrite Hkv.
    - apply ltb_lt in Hkv. by rewrite Hkv, IH. }
  assert (List.filter (λ kv : Q * V, negb (Py.ltb kv.1 t)) (hits ++ rest) = rest) as ->.
  { induction Hhits as [|kv hits Hkv _ IH]; simpl.
    - induction Hge as [|kv rest Hkv _ IH]; simpl; [done|]. by rewrite Hkv, IH.
    - apply ltb_lt in Hkv. by rewrite Hkv. }
  done.
Qed.

End frame_cache.

(** Scenario E4 of the specification, where insertion order is
    timestamp order. *)
Example get_and_remove_frames_E4 :
  let fc := FrameCache.add_frame 3 "r3"
              (FrameCache.add_frame 2 "r2"
                 (FrameCache.add_frame 1 "r1" (FrameCache.default (V := string)))) in
  (FrameCache.get_and_remove_frames_before 3 fc).1 = ["r1"; "r2"]
  ∧ FrameCache.cache (FrameCache.get_and_remove_frames_before 3 fc).2 = [(3%Q, "r3")].
Proof. by vm_compute. Qed.

(** C3 (overflow of a per-camera FrameCache).  The claim asks that an
    insertion into a full cache evicts the oldest entry and keeps the
    new one.  On the full cache of capacity two holding timestamps 1
    and 2, [add_frame 3 "r3"] leaves timestamps 1 and 2: the entry
    evicted is the one just added, and the oldest entry is still
    there. *)
Theorem add_frame_overflow_evicts_newest :
  FrameCache.cache Scenario.full_cache = [(1%Q, "r1"); (2%Q, "r2")]
  ∧ FrameCache.cache (FrameCache.add_frame 3 "r3" Scenario.full_cache)
    = [(1%Q, "r1"); (2%Q, "r2")]
  ∧ FrameCache.contains 3 (FrameCache.cache (FrameCache.add_frame 3 "r3" Scenario.full_cache))
    = false
  ∧ FrameCache.contains 1 (FrameCache.cache (FrameCache.add_frame 3 "r3" Scenario.full_cache))
    = true.
Proof. by vm_compute. Qed.

(** C5 (range extraction).  The claim asks for exactly the records
    below the threshold, in ascending order, on every cache state.
    After timestamp 1 was re-inserted behind timestamp 2, extraction
    below 2 returns nothing and leaves the record stamped 1 in the
    cache, and extraction below 3 returns the records in the order
    2, 1. *)
Theorem get_and_remove_frames_before_after_reinsertion :
  FrameCache.cache Scenario.reinserted_cache = [(2%Q, "r2"); (1%Q, "r1'")]
  ∧ FrameCache.get_and_remove_frames_before 2 Scenario.reinserted_cache
    = ([], Scenario.reinserted_cache)
  ∧ (FrameCache.get_and_remove_frames_before 3 Scenario.reinserted_cache).1
    = ["r2"; "r1'"].
Proof. by vm_compute. Qed.

(** ** FrameSequencingService *)

(** [sequence] never touches the buffer of groups. *)
Lemma sequence_keeps_groups (s : FrameSequencingService.t) :
  FrameSequencingService.grouped_frames_buffer (FrameSequencingService.sequence s)
  = FrameSequencingService.grouped_frames_buffer s.
Proof. done. Qed.

(** [sequence_groups] never reorders the groups either: it returns the
    service unchanged, or it does not return. *)
Lemma sequence_groups_never_sorts (now : Q) (s : FrameSequencingService.t) :
  FrameSequencingService.sequence_groups now s = FrameSequencingService.Returned s
  ∨ FrameSequencingService.sequence_groups now s = FrameSequencingService.Blocked.
Proof.
  unfold FrameSequencingService.sequence_groups.
  destruct (Py.ltb _ _); auto.
Qed.

(** C6, as claimed, fails: with two frames collected, a second
    [sequence] leaves another state than the first, and the frame that
    [next] would have returned after one call is gone after two. *)
Lemma second_sequence_discards_pending :
  let s := Scenario.sequencer_with_two in
  FrameSequencingService.sequence (FrameSequencingService.sequence s)
  ≠ FrameSequencingService.sequence s
  ∧ (FrameSequencingService.next (FrameSequencingService.sequence s)).1
    = Some (Scenario.frame_message "A" 1 1 30)
  ∧ (FrameSequencingService.next
       (FrameSequencingService.sequence (FrameSequencingService.sequence s))).1
    = None.
Proof. split_and!; [|done..]. by vm_compute. Qed.

(** C6, amended.  After two calls of [sequence] with no [collect] in
    between both buffers are empty, so [next] has nothing to return;
    the two calls leave the state of a single call exactly when the
    in-buffer was empty before the first one; and once the output of
    the first call is drained, a further call changes nothing. *)
Theorem sequence_twice (s : FrameSequencingService.t) :
  let s1 := FrameSequencingService.sequence s in
  let s2 := FrameSequencingService.sequence s1 in
  FrameSequencingService.temp_buffer s2 = []
  ∧ FrameSequencingService.frames_buffer s2 = []
  ∧ FrameSequencingService.next s2 = (None, s2)
  ∧ (s2 = s1 ↔ FrameSequencingService.frames_buffer s = [])
  ∧ FrameSequencingService.sequence (FrameSequencingService.drain s1).2
    = (FrameSequencingService.drain s1).2.
Proof.
  destruct s as [d tb fb gb lt]. simpl. split_and!; try done.
  split.
  - intros [= Hs]. symmetry in Hs. by apply sorted_nil_inv in Hs.
  - by intros ->.
Qed.

(** ** FrameSyncNumberService *)

Section number_service.
Import FrameSyncNumberService.

Lemma group_step_no_entry_time cameras acc n :
  Forall no_entry_time acc.2 → Forall no_entry_time (group_step cameras acc n).2.
Proof.
  destruct acc as [gs buf]. unfold group_step. simpl. intros Hbuf.
  destruct (_ =? _)%nat; simpl; [|done].
  apply Forall_fmap. eapply Forall_impl; [exact Hbuf|].
  intros f Hf. simpl. by destruct (has_number n f).
Qed.

Lemma grouping_no_entry_time s :
  Forall no_entry_time (frames_buffer s) → Forall no_entry_time (grouping s).2.
Proof.
  unfold grouping. intros Hbuf.
  change (frames_buffer s) with (@nil group, frames_buffer s).2 in Hbuf.
  revert Hbuf. generalize (@nil group, frames_buffer s).
  induction (sorted_frame_numbers (frames_buffer s)) as [|n ns IH];
    intros acc Hacc; cbn [foldl]; [done|].
  by apply IH, group_step_no_entry_time.
Qed.

(** Without any [entry_time] the clean-up has two outcomes only. *)
Lemma cleanup_no_entry_time now retention buf :
  Forall no_entry_time buf →
  Frame.cleanup now retention buf
  = if forallb Frame.is_grouped buf then Py.Ok [] else Py.Raise Py.TypeError.
Proof.
  induction 1 as [|f buf Hf _ IH]; simpl; [done|].
  destruct (Frame.is_grouped f); simpl; [done|]. by rewrite Hf.
Qed.

Lemma cleanup_sublist now retention buf kept :
  Frame.cleanup now retention buf = Py.Ok kept → kept ⊆ buf.
Proof.
  revert kept. induction buf as [|f buf IH]; simpl; intros kept.
  - by intros [= <-].
  - destruct (Frame.is_grouped f).
    + intros Hc. by apply list_subseteq_cons, IH.
    + destruct (Frame.entry_time f); [|done].
      destruct (Frame.cleanup now retention buf) as [kept'|]; simpl; [|done].
      specialize (IH kept' eq_refl).
      destruct (Py.leb _ _); intros [= <-];
        [by apply list_subseteq_skip | by apply list_subseteq_cons].
Qed.

Lemma number_init_inv config_fps retention interval t0 :
  number_inv (init config_fps retention interval t0).
Proof. split; [done|constructor]. Qed.

Lemma number_collect_inv n ts fps_arg cam msg s :
  number_inv s → number_inv (collect n ts fps_arg cam msg s).
Proof.
  intros [Hseq Hbuf]. split; [done|]. simpl.
  apply Forall_app. split; [done|]. by repeat constructor.
Qed.

Lemma number_synchronize_inv now s :
  number_inv s →
  delivered (synchronize now s) = [] ∧ number_inv (after (synchronize now s)).
Proof.
  intros [Hseq Hbuf]. unfold synchronize.
  pose proof (grouping_no_entry_time s Hbuf) as Hg.
  destruct (grouping s) as [gs buf]. simpl in Hg.
  unfold FrameSequencingService.drain_groups.
  rewrite sequence_keeps_groups, Hseq. simpl.
  destruct (Frame.cleanup now (retention_time s) buf) as [kept|e] eqn:Hc; simpl.
  - split; [done|]. split; [done|]. simpl.
    apply cleanup_sublist in Hc. rewrite Forall_forall in Hg |- *. set_solver.
  - done.
Qed.

Lemma number_run_inv s calls : number_inv s → number_inv (Run.number_run s calls).
Proof.
  revert s. induction calls as [|c calls IH]; intros s Hs; simpl; [done|].
  apply IH. destruct c; simpl.
  - by apply number_collect_inv.
  - by apply number_synchronize_inv.
Qed.

(** No run of the number synchronizer ever hands a group to the
    callback: the groups it forms stay in a local list. *)
Lemma number_synchronize_never_delivers config_fps retention interval t0 calls now :
  delivered (synchronize now (Run.number_run (init config_fps retention interval t0) calls))
  = [].
Proof. apply number_synchronize_inv, number_run_inv, number_init_inv. Qed.

End number_service.

(** C1 (number-mode grouping delivers complete groups).  On the
    lockstep input E1 the pass forms the two complete groups {A1, B1}
    and {A2, B2} in its local list, marks their members and clears the
    buffer, and hands nothing to the callback, where the claim expects
    both groups. *)
Theorem number_synchronize_lockstep_delivers_nothing :
  let p := FrameSyncNumberService.synchronize 2 Scenario.lockstep in
  Run.members <$> (FrameSyncNumberService.grouping Scenario.lockstep).1
  = [[("A", 1%Z); ("B", 1%Z)]; [("A", 2%Z); ("B", 2%Z)]]
  ∧ delivered p = []
  ∧ raised p = None
  ∧ FrameSyncNumberService.frames_buffer (after p) = [].
Proof. by vm_compute. Qed.


(** ** Rate control of the number synchronizer *)






(** ** FrameSyncTimestampService *)

Section timestamp_service.
Import FrameSyncTimestampService.

Lemma within_tolerance_le tol frame item :
  within_tolerance tol frame item = true ↔ (timestamp_distance frame item <= tol)%Q.
Proof. apply leb_le. Qed.

(** The inner loop only ever appends frames within tolerance of its
    item, and it breaks only after an append. *)
Lemma scan_appends tol cameras item frames g g' :
  scan tol cameras item frames g = Some g' →
  ∃ extra, g' = g ++ extra ∧ extra ≠ []
           ∧ Forall (λ jf, (timestamp_distance jf.2 item <= tol)%Q) extra.
Proof.
  revert g. induction frames as [|[j frame] frames IH]; intros g; simpl; [done|].
  destruct (Frame.is_grouped frame); [by apply IH|].
  destruct (within_tolerance tol frame item) eqn:Htol; [|by apply IH].
  destruct (existsb _ g); [by apply IH|].
  apply within_tolerance_le in Htol.
  destruct (_ =? _)%nat.
  - intros [= <-]. exists [(j, frame)]. split_and!; [done..|]. by repeat constructor.
  - intros (extra & -> & _ & Hextra)%IH.
    exists ((j, frame) :: extra). split_and!; [by rewrite <- app_assoc|done|].
    by constructor.
Qed.

Lemma set_grouped_distance v f item :
  timestamp_distance (Frame.set_grouped v f) (Frame.set_grouped v item)
  = timestamp_distance f item.
Proof. done. Qed.

(** One step of the outer loop submits at most one group, an anchored
    one. *)
Lemma outer_step_groups tol cameras acc i :
  let gs := FrameSequencingService.grouped_frames_buffer acc.2 in
  let gs' := FrameSequencingService.grouped_frames_buffer (outer_step tol cameras acc i).2 in
  gs' = gs ∨ ∃ g, anchored tol g ∧ gs' = gs ++ [g].
Proof.
  destruct acc as [buf seq]. unfold outer_step. simpl.
  destruct (buf !! i) as [item|]; [|by left].
  destruct (Frame.is_grouped item); [by left|].
  destruct (scan tol cameras item (indexed buf) [(i, item)]) as [g|] eqn:Hscan; [|by left].
  right. apply scan_appends in Hscan as (extra & -> & Hne & Hextra).
  eexists. split; [|done]. simpl.
  exists (Frame.set_grouped (Frame.Stamp (Frame.frame_timestamp item)) item),
    (Frame.set_grouped (Frame.Stamp (Frame.frame_timestamp item)) <$> extra.*2).
  split_and!; [done| |].
  - by destruct extra.
  - rewrite !Forall_fmap. eapply Forall_impl; [exact Hextra|]. by intros [j f].
Qed.

Lemma grouping_groups s :
  ∃ new,
    FrameSequencingService.grouped_frames_buffer (grouping s).2
    = FrameSequencingService.grouped_frames_buffer (frame_seq s) ++ new
    ∧ Forall (anchored (tolerance s)) new.
Proof.
  unfold grouping.
  change (frame_seq s) with (frames_buffer s, frame_seq s).2 at 2.
  generalize (frames_buffer s, frame_seq s).
  induction (seq 0 (length (frames_buffer s))) as [|i l IH] using rev_ind; intros acc.
  - exists []. by rewrite app_nil_r.
  - rewrite foldl_snoc. destruct (IH acc) as (new & Hnew & Hall).
    destruct (outer_step_groups (tolerance s) (size (initial_camera_data s))
                (foldl (outer_step (tolerance s) (size (initial_camera_data s))) acc l) i)
      as [Heq|(g & Hg & Heq)]; simpl in Heq; rewrite Heq, Hnew.
    + by exists new.
    + exists (new ++ [g]). split; [by rewrite app_assoc|].
      apply Forall_app. by split; [|repeat constructor].
Qed.

Lemma drain_groups_from_subseteq (gs : list group) :
  (FrameSequencingService.drain_groups_from gs).1 ⊆ gs.
Proof.
  induction gs as [|g gs IH]; simpl; [done|].
  destruct g as [|f g]; [by apply list_subseteq_nil|].
  destruct (FrameSequencingService.drain_groups_from gs) as [out rest]. simpl in *.
  by apply list_subseteq_skip.
Qed.

(** In an anchored group any two members are within twice the
    tolerance of each other. *)
Lemma anchored_pairwise tol g f1 f2 :
  anchored tol g → f1 ∈ g → f2 ∈ g → (timestamp_distance f1 f2 <= 2 * tol)%Q.
Proof.
  intros (item & rest & -> & Hne & Hrest) H1 H2.
  assert (0 <= tol)%Q as Htol.
  { destruct rest as [|f rest]; [done|]. apply Forall_cons in Hrest as [Hf _].
    eapply Qle_trans; [apply Qabs_nonneg|exact Hf]. }
  assert (∀ f, f ∈ item :: rest → (timestamp_distance f item <= tol)%Q) as Hall.
  { intros f [->|Hf]%elem_of_cons.
    - unfold timestamp_distance.
      assert (Frame.frame_timestamp item - Frame.frame_timestamp item == 0)%Q as ->
        by ring.
      done.
    - rewrite Forall_forall in Hrest. auto. }
  pose proof (Hall f1 H1) as Hd1. pose proof (Hall f2 H2) as Hd2.
  unfold timestamp_distance in *.
  assert (Frame.frame_timestamp f1 - Frame.frame_timestamp f2
          == (Frame.frame_timestamp f1 - Frame.frame_timestamp item)
             + (Frame.frame_timestamp item - Frame.frame_timestamp f2))%Q as ->
    by ring.
  eapply Qle_trans; [apply Qabs_triangle|].
  rewrite (Qabs_Qminus (Frame.frame_timestamp item) (Frame.frame_timestamp f2)).
  assert (2 * tol == tol + tol)%Q as -> by ring.
  by apply Qplus_le_compat.
Qed.

End timestamp_service.

(** C4, as claimed, fails.  With three cameras at tolerance 0.25 and
    frames stamped 1 (A, first in the buffer), 0.75 (B) and 1.25 (C),
    the pass delivers the three frames as one group although B and C
    are 0.5 apart. *)
Lemma timestamp_group_exceeds_tolerance :
  ∃ g fb fc,
    delivered (FrameSyncTimestampService.synchronize 11 Scenario.straddle) = [g]
    ∧ g !! 1%nat = Some fb ∧ g !! 2%nat = Some fc
    ∧ (FrameSyncTimestampService.tolerance Scenario.straddle == 1 # 4)%Q
    ∧ (timestamp_distance fb fc == 1 # 2)%Q
    ∧ ¬ (timestamp_distance fb fc
         <= FrameSyncTimestampService.tolerance Scenario.straddle)%Q.
Proof.
  eexists _, _, _. split_and!; [by vm_compute..| | |]; by vm_compute.
Qed.

(** Every group a pass delivers was either waiting in the sequencer
    before the pass or is anchored. *)
Lemma timestamp_delivered_pending_or_anchored (now : Q) (s : FrameSyncTimestampService.t) :
  Forall
    (λ g,
       g ∈ FrameSequencingService.grouped_frames_buffer
             (FrameSyncTimestampService.frame_seq s)
       ∨ anchored (FrameSyncTimestampService.tolerance s) g)
    (delivered (FrameSyncTimestampService.synchronize now s)).
Proof.
  apply Forall_forall. intros g Hg.
  unfold FrameSyncTimestampService.synchronize in Hg.
  destruct (grouping_groups s) as (new & Hnew & Hall).
  destruct (FrameSyncTimestampService.grouping s) as [buf seq0]. simpl in Hnew.
  unfold FrameSequencingService.drain_groups in Hg.
  pose proof (drain_groups_from_subseteq
                (FrameSequencingService.grouped_frames_buffer
                   (FrameSequencingService.sequence seq0))) as Hsub.
  destruct (FrameSequencingService.drain_groups_from _) as [out rest].
  assert (g ∈ out) as Hout.
  { destruct (Frame.cleanup now (FrameSyncTimestampService.retention_time s) buf); exact Hg. }
  apply Hsub in Hout. rewrite sequence_keeps_groups, Hnew in Hout.
  apply elem_of_app in Hout as [Hold|Hin]; [by left|right].
  rewrite Forall_forall in Hall. by apply Hall.
Qed.

Lemma drain_groups_from_all (gs : list group) :
  Forall (λ g, g ≠ []) gs → FrameSequencingService.drain_groups_from gs = (gs, []).
Proof.
  induction 1 as [|g gs Hg _ IH]; simpl; [done|].
  destruct g as [|f g]; [done|]. by rewrite IH.
Qed.

Lemma timestamp_collect_frame_seq now n ts fps_arg cam msg s s' :
  FrameSyncTimestampService.collect now n ts fps_arg cam msg s = Py.Ok s' →
  FrameSyncTimestampService.frame_seq s' = FrameSyncTimestampService.frame_seq s.
Proof.
  unfold FrameSyncTimestampService.collect.
  destruct (if Py.eqb _ _ then _ else _) as [tol|e]; simpl; [|done].
  destruct (default _ _) as [d st]. by intros [= <-].
Qed.

(** Between the calls of a run the sequencer of a timestamp
    synchronizer holds no group. *)
Lemma timestamp_synchronize_no_pending now s :
  FrameSequencingService.grouped_frames_buffer (FrameSyncTimestampService.frame_seq s) = [] →
  FrameSequencingService.grouped_frames_buffer
    (FrameSyncTimestampService.frame_seq
       (after (FrameSyncTimestampService.synchronize now s))) = [].
Proof.
  intros Hs. unfold FrameSyncTimestampService.synchronize.
  destruct (grouping_groups s) as (new & Hnew & Hall).
  destruct (FrameSyncTimestampService.grouping s) as [buf seq0]. simpl in Hnew.
  unfold FrameSequencingService.drain_groups.
  rewrite sequence_keeps_groups, Hnew, Hs. simpl.
  rewrite drain_groups_from_all.
  - by destruct (Frame.cleanup _ _ _).
  - eapply Forall_impl; [exact Hall|]. by intros g (item & rest & -> & _).
Qed.

Lemma timestamp_run_no_pending s calls :
  FrameSequencingService.grouped_frames_buffer (FrameSyncTimestampService.frame_seq s) = [] →
  FrameSequencingService.grouped_frames_buffer
    (FrameSyncTimestampService.frame_seq (Run.timestamp_run s calls)) = [].
Proof.
  revert s. induction calls as [|c calls IH]; intros s Hs; simpl; [done|].
  apply IH. destruct c as [now n ts fps_arg cam msg|now]; simpl.
  - destruct (FrameSyncTimestampService.collect now n ts fps_arg cam msg s) as [s'|e] eqn:Hc;
      [|done].
    by rewrite (timestamp_collect_frame_seq _ _ _ _ _ _ _ _ Hc).
  - by apply timestamp_synchronize_no_pending.
Qed.

(** C4, amended.  In every run of the timestamp synchronizer, every
    group a pass delivers is anchored: each member is within the
    tolerance of the group's anchor record, its first member; hence
    any two members are within twice the tolerance of each other. *)
Theorem timestamp_groups_anchored
    (config_fps : Z) (retention latency interval t0 now : Q)
    (calls : list Run.timestamp_call) :
  let s := Run.timestamp_run
             (FrameSyncTimestampService.init config_fps retention latency interval t0)
             calls in
  Forall
    (λ g,
       anchored (FrameSyncTimestampService.tolerance s) g
       ∧ ∀ f1 f2, f1 ∈ g → f2 ∈ g →
           (timestamp_distance f1 f2 <= 2 * FrameSyncTimestampService.tolerance s)%Q)
    (delivered (FrameSyncTimestampService.synchronize now s)).
Proof.
  intros s.
  eapply Forall_impl; [apply timestamp_delivered_pending_or_anchored|].
  intros g [Hpending|Hg]; simpl in *.
  - unfold s in Hpending. rewrite timestamp_run_no_pending in Hpending by done.
    by apply elem_of_nil in Hpending.
  - split; [done|]. intros f1 f2. by apply anchored_pairwise.
Qed.

(** C2 (monotonic delivery).  Three cameras deliver their two frames
    each in order; the first frames are 0.125 apart from one camera to
    the next, so at tolerance 0.125 the group around A's first frame
    is incomplete, the group of the second frames completes first and
    the group of the first frames completes afterwards, around B.  The
    pass hands them to the callback in that order of completion:
    grouping keys 2, then 1. *)
Theorem timestamp_synchronize_delivers_in_completion_order :
  let p := FrameSyncTimestampService.synchronize 11 Scenario.staggered in
  Run.members <$> delivered p
  = [[("A", 2%Z); ("B", 2%Z); ("C", 2%Z)]; [("B", 1%Z); ("A", 1%Z); ("C", 1%Z)]]
  ∧ Run.keys_of (delivered p) = [2%Q; 1%Q]
  ∧ Run.non_decreasing (Run.keys_of (delivered p)) = false.
Proof. by vm_compute. Qed.

(** ** MessageConsumer *)

Section consumer.
Import MessageConsumer.










End consumer.

(** * Further properties of the code *)

(** ** FrameCache: size, keys, extraction *)

Section frame_cache_more.
Context {V : Type}.
Implicit Types (c : list (Q * V)) (fc : FrameCache.t V).

Lemma contains_app (t : Q) c1 c2 :
  FrameCache.contains t (c1 ++ c2) = FrameCache.contains t c1 || FrameCache.contains t c2.
Proof. unfold FrameCache.contains. apply existsb_app. Qed.

Lemma contains_eqb (t t' : Q) c :
  Py.eqb t t' = true → FrameCache.contains t c = FrameCache.contains t' c.
Proof.
  intros Heq%Qeq_bool_iff. induction c as [|kv c IH]; simpl; [done|].
  rewrite IH. f_equal. unfold Py.eqb.
  destruct (Qeq_bool kv.1 t) eqn:H1, (Qeq_bool kv.1 t') eqn:H2; try done.
  - apply Qeq_bool_iff in H1. apply Qeq_bool_neq in H2. exfalso. apply H2.
    by rewrite H1.
  - apply Qeq_bool_iff in H2. apply Qeq_bool_neq in H1. exfalso. apply H1.
    by rewrite H2, Heq.
Qed.

Lemma pop_length (t : Q) c :
  FrameCache.contains t c = true → S (length (FrameCache.pop t c)) = length c.
Proof.
  induction c as [|kv c IH]; simpl; [done|].
  destruct (Py.eqb kv.1 t); simpl; [done|]. intros H. by rewrite IH.
Qed.

Lemma contains_pop_other (t k : Q) c :
  FrameCache.contains k (FrameCache.pop t c) = true → FrameCache.contains k c = true.
Proof.
  induction c as [|kv c IH]; simpl; [done|].
  destruct (Py.eqb kv.1 t); simpl.
  - intros ->. apply orb_true_r.
  - intros [->|H]%orb_true_iff; [done|]. rewrite IH by done. apply orb_true_r.
Qed.

Lemma pop_keys_distinct (t : Q) c :
  CacheRun.keys_distinct c = true →
  CacheRun.keys_distinct (FrameCache.pop t c) = true
  ∧ FrameCache.contains t (FrameCache.pop t c) = false.
Proof.
  induction c as [|kv c IH]; simpl; [done|].
  intros [Hkv Hc]%andb_true_iff. apply negb_true_iff in Hkv.
  destruct (Py.eqb kv.1 t) eqn:Heq; simpl.
  - split; [done|]. by rewrite <- (contains_eqb _ _ _ Heq).
  - destruct (IH Hc) as [IH1 IH2]. rewrite Heq, IH1, IH2. split; [|done].
    rewrite andb_true_r. apply negb_true_iff, not_true_iff_false.
    intros H%contains_pop_other. congruence.
Qed.

Lemma snoc_keys_distinct (t : Q) (r : V) c :
  CacheRun.keys_distinct c = true → FrameCache.contains t c = false →
  CacheRun.keys_distinct (c ++ [(t, r)]) = true.
Proof.
  induction c as [|kv c IH]; simpl; [done|].
  intros [Hkv Hc]%andb_true_iff [Hne Hnot]%orb_false_iff.
  rewrite IH by done. rewrite contains_app. simpl.
  apply negb_true_iff in Hkv. rewrite Hkv. simpl.
  rewrite orb_false_r, andb_true_r. apply negb_true_iff.
  unfold Py.eqb in *. apply not_true_iff_false. intros H%Qeq_bool_iff.
  apply not_true_iff_false in Hne. apply Hne, Qeq_bool_iff. by symmetry.
Qed.

Lemma removelast_keys_distinct c :
  CacheRun.keys_distinct c = true → CacheRun.keys_distinct (removelast c) = true.
Proof.
  induction c as [|kv c IH]; [done|].
  destruct c as [|kv' c]; [done|].
  change (removelast (kv :: kv' :: c)) with (kv :: removelast (kv' :: c)).
  cbn [CacheRun.keys_distinct]. intros [Hkv Hc]%andb_true_iff.
  rewrite IH by done. rewrite andb_true_r.
  apply negb_true_iff. apply negb_true_iff in Hkv. apply not_true_iff_false.
  intros Hin. apply not_true_iff_false in Hkv. apply Hkv.
  clear -Hin. revert Hin. generalize (kv' :: c). intros l.
  induction l as [|x l IH]; [done|]. destruct l as [|y l]; [done|].
  change (removelast (x :: y :: l)) with (x :: removelast (y :: l)).
  cbn [FrameCache.contains existsb]. intros [->|H]%orb_true_iff; [done|].
  rewrite orb_true_iff. right. by apply IH.
Qed.

Lemma add_frame_keys_distinct (t : Q) (r : V) fc :
  CacheRun.keys_distinct (FrameCache.cache fc) = true →
  CacheRun.keys_distinct (FrameCache.cache (FrameCache.add_frame t r fc)) = true.
Proof.
  intros Hd. unfold FrameCache.add_frame. cbn [FrameCache.cache].
  assert (CacheRun.keys_distinct
            ((if FrameCache.contains t (FrameCache.cache fc)
              then FrameCache.pop t (FrameCache.cache fc)
              else FrameCache.cache fc) ++ [(t, r)]) = true) as Hc2.
  { destruct (FrameCache.contains t (FrameCache.cache fc)) eqn:Hin.
    - destruct (pop_keys_distinct t _ Hd). by apply snoc_keys_distinct.
    - by apply snoc_keys_distinct. }
  destruct (_ && _); [|done]. by apply removelast_keys_distinct.
Qed.

Lemma add_frame_length_bound (t : Q) (r : V) fc :
  (0 < FrameCache.max_size fc)%Z →
  (Z.of_nat (length (FrameCache.cache fc)) <= FrameCache.max_size fc)%Z →
  (Z.of_nat (length (FrameCache.cache (FrameCache.add_frame t r fc)))
   <= FrameCache.max_size fc)%Z.
Proof.
  intros Hpos Hlen. unfold FrameCache.add_frame. cbn [FrameCache.cache].
  set (c1 := if FrameCache.contains t (FrameCache.cache fc)
             then FrameCache.pop t (FrameCache.cache fc) else FrameCache.cache fc).
  assert (length c1 <= length (FrameCache.cache fc))%nat as Hc1.
  { subst c1. destruct (FrameCache.contains t _) eqn:Hin; [|done].
    apply pop_length in Hin. lia. }
  destruct (Z.eqb_spec (FrameCache.max_size fc) 0); [lia|]. simpl.
  destruct (Z.ltb_spec (FrameCache.max_size fc) (Z.of_nat (length (c1 ++ [(t, r)])))) as [Hlt|Hge].
  - unfold FrameCache.popitem. rewrite removelast_last. lia.
  - done.
Qed.

End frame_cache_more.

(** X1.  Starting from an empty per-camera cache with a positive
    [max_size], no sequence of [add_frame] calls makes the cache hold
    more than [max_size] entries, and [max_size] itself never changes. *)
Theorem add_frame_never_exceeds_max_size {V : Type} (p : positive) (adds : list (Q * V)) :
  let fc := CacheRun.add_all adds (FrameCache.init (Z.pos p)) in
  (length (FrameCache.cache fc) <= Pos.to_nat p)%nat
  ∧ FrameCache.max_size fc = Z.pos p.
Proof.
  cbn zeta. unfold CacheRun.add_all.
  assert (∀ fc0 : FrameCache.t V,
            FrameCache.max_size fc0 = Z.pos p →
            (Z.of_nat (length (FrameCache.cache fc0)) <= Z.pos p)%Z →
            let fc := foldl (λ fc kv, FrameCache.add_frame kv.1 kv.2 fc) fc0 adds in
            (Z.of_nat (length (FrameCache.cache fc)) <= Z.pos p)%Z
            ∧ FrameCache.max_size fc = Z.pos p) as H.
  { induction adds as [|[t r] adds IH]; intros fc0 Hmax Hlen; simpl; [done|].
    apply IH; [done|]. simpl.
    rewrite <- Hmax. apply add_frame_length_bound; rewrite Hmax; [lia|done]. }
  destruct (H (FrameCache.init (Z.pos p))) as [Hlen Hmax]; [done|simpl; lia|].
  split; [lia|done].
Qed.

(** X2.  Whatever [add_frame] calls were made on an empty cache, no two
    entries of the cache carry the same timestamp: re-inserting a
    timestamp replaces its entry. *)
Theorem add_frame_keeps_timestamps_distinct {V : Type} (max_size : Z) (adds : list (Q * V)) :
  CacheRun.keys_distinct
    (FrameCache.cache (CacheRun.add_all adds (FrameCache.init max_size))) = true.
Proof.
  unfold CacheRun.add_all.
  assert (CacheRun.keys_distinct (FrameCache.cache (FrameCache.init (V := V) max_size)) = true)
    as H0 by done.
  revert H0. generalize (FrameCache.init (V := V) max_size).
  induction adds as [|[t r] adds IH]; intros fc Hfc; simpl; [done|].
  by apply IH, add_frame_keys_distinct.
Qed.

(** X3.  [get_and_remove_frames_before] loses and reorders nothing:
    the entries it returns followed by the entries it leaves are the
    cache as it was; every returned entry is below the threshold and
    the first entry left, if any, is not. *)
Theorem get_and_remove_frames_before_splits {V : Type} (t : Q) (fc : FrameCache.t V) :
  ∃ hits,
    (FrameCache.get_and_remove_frames_before t fc).1 = hits.*2
    ∧ FrameCache.cache fc
      = hits ++ FrameCache.cache (FrameCache.get_and_remove_frames_before t fc).2
    ∧ FrameCache.max_size (FrameCache.get_and_remove_frames_before t fc).2
      = FrameCache.max_size fc
    ∧ Forall (λ kv, (kv.1 < t)%Q) hits
    ∧ match FrameCache.cache (FrameCache.get_and_remove_frames_before t fc).2 with
      | [] => True
      | kv :: _ => (t <= kv.1)%Q
      end.
Proof.
  destruct (get_and_remove_frames_before_prefix t fc)
    as (hits & rest & Hc & Hhits & Hrest & ->).
  exists hits. simpl. split_and!; try done.
  destruct rest as [|kv rest]; [done|]. by apply Qnot_lt_le.
Qed.

(** X4.  A second extraction with the same threshold returns nothing
    and leaves the cache as the first one left it. *)
Theorem get_and_remove_frames_before_twice {V : Type} (t : Q) (fc : FrameCache.t V) :
  let fc' := (FrameCache.get_and_remove_frames_before t fc).2 in
  FrameCache.get_and_remove_frames_before t fc' = ([], fc').
Proof.
  cbn zeta.
  destruct (get_and_remove_frames_before_prefix t fc)
    as (hits & rest & Hc & Hhits & Hrest & ->).
  simpl. unfold FrameCache.get_and_remove_frames_before. simpl.
  destruct rest as [|kv rest]; [done|]. simpl.
  destruct (Py.ltb kv.1 t) eqn:Hlt; [|done].
  by apply ltb_lt in Hlt.
Qed.

Section frame_cache_entries.
Context {V : Type}.

Lemma pop_Forall (P : Q * V → Prop) (t : Q) (c : list (Q * V)) :
  Forall P c → Forall P (FrameCache.pop t c).
Proof.
  induction 1 as [|kv c Hkv Hc IH]; simpl; [constructor|].
  destruct (Py.eqb kv.1 t); [done|]. by constructor.
Qed.

Lemma removelast_Forall {A} (P : A → Prop) (l : list A) :
  Forall P l → Forall P (removelast l).
Proof.
  induction 1 as [|x l Hx Hl IH]; [constructor|].
  destruct l as [|y l]; [constructor|].
  change (removelast (x :: y :: l)) with (x :: removelast (y :: l)). by constructor.
Qed.

(** Whatever holds of the entries of a cache and of the entry added
    holds of the entries after [add_frame]. *)
Lemma add_frame_Forall (P : Q * V → Prop) (t : Q) (r : V) (fc : FrameCache.t V) :
  Forall P (FrameCache.cache fc) → P (t, r) →
  Forall P (FrameCache.cache (FrameCache.add_frame t r fc)).
Proof.
  intros Hc Hnew. unfold FrameCache.add_frame. cbn [FrameCache.cache].
  assert (Forall P ((if FrameCache.contains t (FrameCache.cache fc)
                     then FrameCache.pop t (FrameCache.cache fc)
                     else FrameCache.cache fc) ++ [(t, r)])) as Hc2.
  { apply Forall_app. split; [|by repeat constructor].
    destruct (FrameCache.contains _ _); [by apply pop_Forall|done]. }
  destruct (_ && _); [|done]. by apply removelast_Forall.
Qed.

End frame_cache_entries.

(** X5.  On a cache whose entries are in ascending order of timestamp,
    [get_and_remove_frames_before] is exact: it returns the frames of
    exactly the entries below the threshold, in ascending order, and
    leaves exactly the entries at or above it. *)
Theorem get_and_remove_frames_before_exact_in_order
    {V : Type} (t : Q) (fc : FrameCache.t V) :
  StronglySorted (λ a b : Q * V, (a.1 < b.1)%Q) (FrameCache.cache fc) →
  (FrameCache.get_and_remove_frames_before t fc).1
  = (List.filter (λ kv, Py.ltb kv.1 t) (FrameCache.cache fc)).*2
  ∧ FrameCache.cache (FrameCache.get_and_remove_frames_before t fc).2
    = List.filter (λ kv, negb (Py.ltb kv.1 t)) (FrameCache.cache fc)
  ∧ StronglySorted (λ a b : Q * V, (a.1 < b.1)%Q)
      (FrameCache.cache (FrameCache.get_and_remove_frames_before t fc).2).
Proof.
  intros Hsorted.
  rewrite (get_and_remove_frames_before_sorted t fc Hsorted). simpl.
  split_and!; [done..|].
  induction Hsorted as [|kv c Hc IH Hkv]; simpl; [constructor|].
  destruct (negb _); [|done]. constructor; [done|].
  clear -Hkv. induction Hkv as [|kv' c Hkv' _ IH]; simpl; [constructor|].
  destruct (negb _); [by constructor|done].
Qed.

(** The theorem on scenario E4 of the specification. *)
Lemma get_and_remove_frames_before_exact_in_order_E4 :
  let fc := FrameCache.mk [(1%Q, "r1"); (2%Q, "r2"); (3%Q, "r3")] 1000 in
  (FrameCache.get_and_remove_frames_before 3 fc).1 = ["r1"; "r2"]
  ∧ FrameCache.cache (FrameCache.get_and_remove_frames_before 3 fc).2 = [(3%Q, "r3")].
Proof.
  cbn zeta.
  destruct (get_and_remove_frames_before_exact_in_order 3
              (FrameCache.mk [(1%Q, "r1"); (2%Q, "r2"); (3%Q, "r3")] 1000))
    as (H1 & H2 & _).
  - repeat constructor.
  - rewrite H1, H2. split; reflexivity.
Defined.

(** X6.  [get_and_remove_frames_between] removes from the cache the
    same front run of entries as [get_and_remove_frames_before] with
    the upper bound, and returns those of their frames that are stamped
    above the lower bound: entries at or below the lower bound leave
    the cache without being returned.  When every entry is filed under
    its frame's own timestamp, as the tracker files them, each returned
    frame is stamped strictly between the two bounds. *)
Theorem get_and_remove_frames_between_window
    {V : Type} (frame_timestamp_of : V → Q) (from_timestamp to_timestamp : Q)
    (fc : FrameCache.t V) :
  Forall (λ kv, (kv.1 == frame_timestamp_of kv.2)%Q) (FrameCache.cache fc) →
  let result :=
    FrameCache.get_and_remove_frames_between frame_timestamp_of
      from_timestamp to_timestamp fc in
  result.2 = (FrameCache.get_and_remove_frames_before to_timestamp fc).2
  ∧ (∃ hits,
       FrameCache.cache fc = hits ++ FrameCache.cache result.2
       ∧ result.1
         = List.filter (λ f, Py.ltb from_timestamp (frame_timestamp_of f)) hits.*2)
  ∧ Forall (λ f, (from_timestamp < frame_timestamp_of f)%Q
                 ∧ (frame_timestamp_of f < to_timestamp)%Q) result.1.
Proof.
  intros Hkeys result. subst result.
  unfold FrameCache.get_and_remove_frames_between.
  destruct (get_and_remove_frames_before_prefix to_timestamp fc)
    as (hits & rest & Hc & Hhits & _ & ->). simpl.
  split_and!; [done|by exists hits|].
  rewrite Hc in Hkeys. apply Forall_app in Hkeys as [Hkeys _].
  clear Hc. induction hits as [|[k v] hits IH]; simpl; [constructor|].
  apply Forall_cons in Hhits as [Hk Hhits]. apply Forall_cons in Hkeys as [Hkv Hkeys].
  simpl in *. destruct (Py.ltb from_timestamp (frame_timestamp_of v)) eqn:Hlt.
  - constructor; [|by apply IH]. split; [by apply ltb_lt|]. by rewrite <- Hkv.
  - by apply IH.
Qed.

(** The theorem on the second half of scenario E4: between 1 and 3
    only the frame stamped 2 comes back, and the frame stamped 1 is
    gone from the cache as well. *)
Lemma get_and_remove_frames_between_window_E4 :
  let frame ts := Scenario.frame_message "A" 1 ts 30 in
  let fc := FrameCache.mk [(1%Q, frame 1%Q); (2%Q, frame 2%Q); (3%Q, frame 3%Q)] 1000 in
  let result := FrameCache.get_and_remove_frames_between m_frame_timestamp 1 3 fc in
  result.1 = [frame 2%Q]
  ∧ FrameCache.cache result.2 = [(3%Q, frame 3%Q)]
  ∧ Forall (λ f, (1 < m_frame_timestamp f)%Q ∧ (m_frame_timestamp f < 3)%Q) result.1.
Proof.
  cbn zeta.
  split; [reflexivity|]. split; [reflexivity|].
  apply (get_and_remove_frames_between_window m_frame_timestamp 1 3
           (FrameCache.mk
              [(1%Q, Scenario.frame_message "A" 1 1 30);
               (2%Q, Scenario.frame_message "A" 1 2 30);
               (3%Q, Scenario.frame_message "A" 1 3 30)] 1000)).
  repeat constructor.
Defined.

(** X7.  [add_camera] is idempotent and never resets a camera: after
    it the camera has a cache; a camera that had one keeps it and the
    call reports [False]; a new camera gets an empty cache of capacity
    1000 and the call reports [True]; other cameras are untouched; and
    a second call changes nothing. *)
Theorem add_camera_idempotent
    {V : Type} (camera_id : string) (cs : gmap string (FrameCache.t V)) :
  let created := (FrameCache.add_camera camera_id cs).1 in
  let cs' := (FrameCache.add_camera camera_id cs).2 in
  is_Some (FrameCache.get_frame_cache camera_id cs')
  ∧ (created = false ↔ is_Some (FrameCache.get_frame_cache camera_id cs))
  ∧ (created = false → cs' = cs)
  ∧ (created = true →
       FrameCache.get_frame_cache camera_id cs' = Some (FrameCache.mk [] 1000))
  ∧ (∀ other, other ≠ camera_id →
       FrameCache.get_frame_cache other cs' = FrameCache.get_frame_cache other cs)
  ∧ FrameCache.add_camera camera_id cs' = (false, cs').
Proof.
  unfold FrameCache.add_camera, FrameCache.get_frame_cache. cbn zeta.
  destruct (cs !! camera_id) as [fc|] eqn:Hcs; simpl.
  - rewrite Hcs. split_and!; done.
  - rewrite lookup_insert_eq.
    split_and!; [done| |done|done| |done].
    + split; [done|]. by intros [? [=]].
    + intros other Hne. by rewrite lookup_insert_ne.
Qed.

(** ** The tracker's capture callback *)

Lemma capture_cache_ok_add (m : message) (fc : FrameCache.t message) :
  capture_cache_ok (m_camera_id m) fc →
  capture_cache_ok (m_camera_id m) (FrameCache.add_frame (m_frame_timestamp m) m fc).
Proof.
  intros (Hmax & Hlen & Hkeys & Hall). split_and!.
  - done.
  - pose proof (add_frame_length_bound (m_frame_timestamp m) m fc) as H.
    rewrite Hmax in H. lia.
  - by apply add_frame_keys_distinct.
  - by apply add_frame_Forall.
Qed.

Lemma capture_callback_ok (m : message) (cs : gmap string (FrameCache.t message)) :
  map_Forall capture_cache_ok cs → map_Forall capture_cache_ok (CacheRun.capture_callback m cs).
Proof.
  intros Hcs. unfold CacheRun.capture_callback, FrameCache.add_camera,
    FrameCache.get_frame_cache.
  destruct (cs !! m_camera_id m) as [fc|] eqn:Hcam; simpl.
  - rewrite Hcam. apply map_Forall_insert_2; [|done].
    apply capture_cache_ok_add. by apply (Hcs _ _ Hcam).
  - rewrite lookup_insert_eq, insert_insert_eq.
    apply map_Forall_insert_2; [|done].
    apply capture_cache_ok_add. split_and!; [done|simpl; lia|done|constructor].
Qed.

Lemma capture_callback_dom (m : message) (cs : gmap string (FrameCache.t message)) :
  dom (CacheRun.capture_callback m cs) = {[m_camera_id m]} ∪ dom cs.
Proof.
  unfold CacheRun.capture_callback, FrameCache.add_camera, FrameCache.get_frame_cache.
  destruct (cs !! m_camera_id m) as [fc|] eqn:Hcam; simpl.
  - rewrite Hcam. by rewrite dom_insert_L.
  - rewrite lookup_insert_eq, insert_insert_eq. by rewrite dom_insert_L.
Qed.

(** X8.  After the tracker's capture callback has handled any
    sequence of messages, starting with no camera: the cameras that
    have a cache are exactly the cameras of the messages; and every
    per-camera cache has capacity 1000, holds at most 1000 entries, no
    two under the same timestamp, each entry being a message of that
    camera filed under its own [frame_timestamp]. *)
Theorem capture_callback_caches (ms : list message) :
  map_Forall capture_cache_ok (CacheRun.capture_all ms ∅)
  ∧ ∀ camera_id,
      is_Some (FrameCache.get_frame_cache camera_id (CacheRun.capture_all ms ∅))
      ↔ camera_id ∈ m_camera_id <$> ms.
Proof.
  unfold CacheRun.capture_all, FrameCache.get_frame_cache.
  assert (∀ cs : gmap string (FrameCache.t message),
            map_Forall capture_cache_ok cs →
            map_Forall capture_cache_ok (foldl (λ cs m, CacheRun.capture_callback m cs) cs ms)
            ∧ dom (foldl (λ cs m, CacheRun.capture_callback m cs) cs ms)
              = list_to_set (m_camera_id <$> ms) ∪ dom cs) as H.
  { induction ms as [|m ms IH]; intros cs Hcs; simpl.
    - split; [done|]. set_solver.
    - destruct (IH (CacheRun.capture_callback m cs)) as [H1 H2];
        [by apply capture_callback_ok|].
      split; [done|]. rewrite H2, capture_callback_dom. set_solver. }
  destruct (H ∅) as [H1 H2]; [apply map_Forall_empty|].
  split; [done|]. intros camera_id.
  rewrite <- elem_of_dom, H2, dom_empty_L. set_solver.
Qed.

(** ** FrameSequencingService: what [sequence] hands to [next] *)

Section py_sorted.
Context {A : Type} (key : A → Q).

Lemma insert_by_perm (x : A) (l : list A) : Py.insert_by key x l ≡ₚ x :: l.
Proof.
  induction l as [|y l IH]; simpl; [done|].
  destruct (Py.leb (key x) (key y)); [done|].
  rewrite IH. apply Permutation_swap.
Qed.

Lemma sorted_perm (l : list A) : Py.sorted key l ≡ₚ l.
Proof.
  induction l as [|x l IH]; simpl; [done|].
  fold (Py.sorted key l). by rewrite insert_by_perm, IH.
Qed.

Lemma insert_by_sorted (x : A) (l : list A) :
  StronglySorted (key_le key) l → StronglySorted (key_le key) (Py.insert_by key x l).
Proof.
  induction 1 as [|y l Hl IH Hy]; simpl; [by repeat constructor|].
  destruct (Py.leb (key x) (key y)) eqn:Hxy.
  - apply leb_le in Hxy. constructor; [by constructor|].
    constructor; [done|]. eapply Forall_impl; [exact Hy|].
    intros z Hz. unfold key_le in *. by eapply Qle_trans.
  - constructor; [done|].
    rewrite insert_by_perm. constructor; [|done].
    unfold key_le. apply Qlt_le_weak, Qnot_le_lt. intros Hle%leb_le. congruence.
Qed.

Lemma sorted_sorted (l : list A) : StronglySorted (key_le key) (Py.sorted key l).
Proof.
  induction l as [|x l IH]; simpl; [constructor|]. by apply insert_by_sorted.
Qed.

(** Elements with equal keys keep their order: the sort is stable. *)
Lemma insert_by_stable (k : Q) (x : A) (l : list A) :
  List.filter (λ a, Py.eqb (key a) k) (Py.insert_by key x l)
  = List.filter (λ a, Py.eqb (key a) k) (x :: l).
Proof.
  induction l as [|y l IH]; simpl; [done|].
  destruct (Py.leb (key x) (key y)) eqn:Hxy; [done|].
  simpl in *. rewrite IH.
  destruct (Py.eqb (key x) k) eqn:Hx, (Py.eqb (key y) k) eqn:Hy; try done.
  exfalso. apply Qeq_bool_iff in Hx, Hy.
  assert (Py.leb (key x) (key y) = true); [|congruence].
  apply leb_le. rewrite Hx, Hy. apply Qle_refl.
Qed.

Lemma sorted_stable (k : Q) (l : list A) :
  List.filter (λ a, Py.eqb (key a) k) (Py.sorted key l)
  = List.filter (λ a, Py.eqb (key a) k) l.
Proof.
  induction l as [|x l IH]; simpl; [done|].
  fold (Py.sorted key l). rewrite insert_by_stable. simpl. by rewrite IH.
Qed.

End py_sorted.

Lemma next_until_none_drains (s : FrameSequencingService.t) :
  SequencerRun.next_until_none (S (length (FrameSequencingService.temp_buffer s))) s
  = FrameSequencingService.drain s.
Proof.
  destruct s as [d tb fb gb lt]. unfold FrameSequencingService.drain.
  cbn [FrameSequencingService.duration FrameSequencingService.temp_buffer
    FrameSequencingService.frames_buffer FrameSequencingService.grouped_frames_buffer
    FrameSequencingService.last_sequence_time].
  induction tb as [|e tb IH]; [done|].
  change (SequencerRun.next_until_none (S (length (e :: tb))) ?s)
    with (match FrameSequencingService.next s with
          | (None, s') => ([], s')
          | (Some m, s') =>
              let '(ms, s'') := SequencerRun.next_until_none (S (length tb)) s' in
              (m :: ms, s'')
          end).
  unfold FrameSequencingService.next. cbn [FrameSequencingService.temp_buffer].
  cbn beta iota. cbn [FrameSequencingService.duration FrameSequencingService.frames_buffer
    FrameSequencingService.grouped_frames_buffer FrameSequencingService.last_sequence_time].
  by rewrite IH.
Qed.

(** X9.  [sequence] moves every collected frame, and nothing else, to
    the output buffer, in non-decreasing order of [frame_timestamp],
    frames with equal timestamps keeping their order of collection;
    it empties the in-buffer; and calling [next] until it returns
    [None] yields the messages in that order. *)
Theorem sequence_orders_collected_frames (s : FrameSequencingService.t) :
  let s' := FrameSequencingService.sequence s in
  FrameSequencingService.temp_buffer s' ≡ₚ FrameSequencingService.frames_buffer s
  ∧ StronglySorted
      (λ a b, (FrameSequencingService.e_frame_timestamp a
               <= FrameSequencingService.e_frame_timestamp b)%Q)
      (FrameSequencingService.temp_buffer s')
  ∧ (∀ k,
       List.filter (λ e, Py.eqb (FrameSequencingService.e_frame_timestamp e) k)
         (FrameSequencingService.temp_buffer s')
       = List.filter (λ e, Py.eqb (FrameSequencingService.e_frame_timestamp e) k)
           (FrameSequencingService.frames_buffer s))
  ∧ FrameSequencingService.frames_buffer s' = []
  ∧ (SequencerRun.next_until_none
       (S (length (FrameSequencingService.temp_buffer s'))) s').1
    = FrameSequencingService.e_message <$> FrameSequencingService.temp_buffer s'
  ∧ (FrameSequencingService.next s').1
    = FrameSequencingService.e_message <$> head (FrameSequencingService.temp_buffer s').
Proof.
  cbn zeta. split_and!.
  - apply sorted_perm.
  - apply sorted_sorted.
  - intros k. apply sorted_stable.
  - done.
  - by rewrite next_until_none_drains.
  - unfold FrameSequencingService.next. simpl.
    by destruct (Py.sorted _ _).
Qed.

(** X10.  Groups leave a sequencer first in, first out: however
    [collect], [collect_group], [sequence], [next], [sequence_groups]
    and [next_group] are interleaved, the groups [next_group] has
    returned, followed by the groups still buffered, are the groups
    submitted, in the order of their submission.  No call sorts them. *)
Theorem sequencer_groups_first_in_first_out
    (duration now : Q) (calls : list SequencerRun.call) :
  let p := SequencerRun.run duration now calls in
  SequencerRun.submitted p
  = SequencerRun.returned p
    ++ FrameSequencingService.grouped_frames_buffer (SequencerRun.service p).
Proof.
  cbn zeta. unfold SequencerRun.run.
  assert (∀ p0,
            SequencerRun.submitted p0
            = SequencerRun.returned p0
              ++ FrameSequencingService.grouped_frames_buffer (SequencerRun.service p0) →
            SequencerRun.submitted (foldl SequencerRun.step p0 calls)
            = SequencerRun.returned (foldl SequencerRun.step p0 calls)
              ++ FrameSequencingService.grouped_frames_buffer
                   (SequencerRun.service (foldl SequencerRun.step p0 calls))) as H.
  { induction calls as [|c calls IH]; intros p0 Hp0; simpl; [done|].
    apply IH. unfold SequencerRun.step.
    destruct (SequencerRun.stuck p0); [done|].
    destruct p0 as [s sub ret st]. simpl in *.
    destruct c as [t ts cam msg|g| | |t|]; simpl.
    - destruct ts; simpl; done.
    - by rewrite Hp0, app_assoc.
    - done.
    - unfold FrameSequencingService.next. by destruct (FrameSequencingService.temp_buffer s).
    - unfold FrameSequencingService.sequence_groups. by destruct (Py.ltb _ _).
    - unfold FrameSequencingService.next_group.
      destruct (FrameSequencingService.grouped_frames_buffer s) as [|g gs] eqn:Hgs; simpl.
      + by rewrite Hgs.
      + rewrite Hp0. by rewrite <- app_assoc. }
  by apply H.
Qed.

(** ** FrameSyncNumberService: the tables and the marks *)

Section number_history.
Import FrameSyncNumberService.

Lemma number_run_snoc s calls c :
  Run.number_run s (calls ++ [c]) = Run.number_step (Run.number_run s calls) c.
Proof. unfold Run.number_run. by rewrite foldl_snoc. Qed.

Lemma first_nonzero_snoc (l : list Z) (z : Z) :
  NumberHistory.first_nonzero (l ++ [z])
  = if (NumberHistory.first_nonzero l =? 0)%Z then z else NumberHistory.first_nonzero l.
Proof.
  unfold NumberHistory.first_nonzero. rewrite List.filter_app. simpl.
  induction l as [|y l IH]; simpl.
  - by destruct (Z.eqb_spec z 0) as [->|].
  - destruct (Z.eqb_spec y 0) as [->|Hy]; simpl; [done|].
    by destruct (Z.eqb_spec y 0).
Qed.

Lemma collected_snoc camera_id calls c :
  NumberHistory.collected camera_id (calls ++ [c])
  = NumberHistory.collected camera_id calls
    ++ match c with
       | Run.NCollect n ts _ cam msg =>
           if bool_decide (cam = camera_id) then [(n, ts, msg)] else []
       | Run.NSynchronize _ => []
       end.
Proof.
  unfold NumberHistory.collected. rewrite omap_app. f_equal.
  destruct c as [n ts f cam msg|now]; simpl; [|done]. by destruct (bool_decide _).
Qed.

Lemma reported_fps_snoc calls c :
  NumberHistory.reported_fps (calls ++ [c])
  = NumberHistory.reported_fps calls
    ++ match c with
       | Run.NCollect _ _ fps _ _ => [fps]
       | Run.NSynchronize _ => []
       end.
Proof.
  unfold NumberHistory.reported_fps. rewrite omap_app. f_equal. by destruct c.
Qed.

(** X11.  The tables of a number synchronizer as functions of what was
    collected.  After any run: the effective fps is the first non-zero
    value among the configured fps and the fps values of the collected
    messages, in this order, so a non-zero fps is never replaced; a
    camera's start time is the timestamp of its first collected frame;
    a camera's current data are those of its last collected frame, with
    the elapsed time measured from that start time; and [sampling]
    raises [KeyError] exactly for the cameras of which nothing was
    collected. *)
Theorem number_tables_follow_history
    (config_fps : Z) (retention interval t0 : Q)
    (calls : list Run.number_call) (camera_id : string) :
  let s := Run.number_run (init config_fps retention interval t0) calls in
  let frames := NumberHistory.collected camera_id calls in
  fps s = NumberHistory.first_nonzero (config_fps :: NumberHistory.reported_fps calls)
  ∧ initial_camera_data s !! camera_id = (λ f, f.1.2) <$> head frames
  ∧ current_camera_data s !! camera_id
    = (λ f, Frame.mk_camera_data f.1.1 f.1.2
              (f.1.2 - default 0%Q ((λ f, f.1.2) <$> head frames))%Q None f.2)
      <$> last frames
  ∧ (sampling camera_id s = Py.Raise Py.KeyError ↔ frames = []).
Proof.
  cbn zeta.
  assert (∀ s frames,
            current_camera_data s !! camera_id
            = (λ f, Frame.mk_camera_data f.1.1 f.1.2
                      (f.1.2 - default 0%Q ((λ f, f.1.2) <$> head frames))%Q None f.2)
              <$> last frames →
            (sampling camera_id s = Py.Raise Py.KeyError ↔ frames = [])) as Hsampling.
  { intros s frames Hcur. unfold sampling. rewrite Hcur.
    destruct (last frames) as [f|] eqn:Hlast; simpl.
    - split; [|intros ->; discriminate Hlast].
      destruct (_ <? _)%Z; [destruct (_ =? _)%Z|]; done.
    - apply last_None in Hlast. done. }
  induction calls as [|c calls IH] using rev_ind.
  - split_and!; [|done|done|by apply Hsampling].
    unfold NumberHistory.first_nonzero. simpl.
    by destruct (Z.eqb_spec config_fps 0) as [->|].
  - destruct IH as (IHfps & IHinit & IHcur & _).
    rewrite number_run_snoc, collected_snoc, reported_fps_snoc.
    set (s := Run.number_run (init config_fps retention interval t0) calls) in *.
    set (frames := NumberHistory.collected camera_id calls) in *.
    set (reported := NumberHistory.reported_fps calls) in *.
    clearbody s frames reported.
    destruct c as [n ts f cam msg|now]; cbn [Run.number_step].
    + assert (fps (collect n ts f cam msg s)
              = NumberHistory.first_nonzero (config_fps :: reported ++ [f])) as Hfps.
      { rewrite app_comm_cons, first_nonzero_snoc, <- IHfps. done. }
      destruct (bool_decide_reflect (cam = camera_id)) as [->|Hne].
      * assert (initial_camera_data (collect n ts f camera_id msg s) !! camera_id
                = (λ f, f.1.2) <$> head (frames ++ [(n, ts, msg)])) as Hinit.
        { simpl. destruct (initial_camera_data s !! camera_id) as [st|] eqn:Hst.
          - rewrite Hst. rewrite IHinit in Hst. by destruct frames.
          - rewrite lookup_insert_eq. rewrite IHinit in Hst. by destruct frames. }
        assert (current_camera_data (collect n ts f camera_id msg s) !! camera_id
                = (λ f0, Frame.mk_camera_data f0.1.1 f0.1.2
                           (f0.1.2 - default 0%Q
                              ((λ f, f.1.2) <$> head (frames ++ [(n, ts, msg)])))%Q
                           None f0.2)
                  <$> last (frames ++ [(n, ts, msg)])) as Hcur.
        { rewrite last_snoc. rewrite <- Hinit. simpl. rewrite lookup_insert_eq.
          simpl. do 2 f_equal.
          destruct (initial_camera_data s !! camera_id) as [st|] eqn:Hst.
          - by rewrite Hst.
          - by rewrite lookup_insert_eq. }
        split_and!; [done|done|done|]. by apply Hsampling.
      * rewrite app_nil_r.
        assert (initial_camera_data (collect n ts f cam msg s) !! camera_id
                = initial_camera_data s !! camera_id) as Hinit.
        { simpl. destruct (initial_camera_data s !! cam); [done|].
          by rewrite lookup_insert_ne. }
        assert (current_camera_data (collect n ts f cam msg s) !! camera_id
                = current_camera_data s !! camera_id) as Hcur.
        { simpl. by rewrite lookup_insert_ne. }
        rewrite Hinit, Hcur, IHinit, IHcur.
        split_and!; [done|done|done|]. apply Hsampling. by rewrite Hcur, IHcur.
    + rewrite !app_nil_r.
      assert (fps (after (synchronize now s)) = fps s
              ∧ initial_camera_data (after (synchronize now s)) = initial_camera_data s
              ∧ current_camera_data (after (synchronize now s)) = current_camera_data s)
        as (Hf & Hi & Hc).
      { unfold synchronize. destruct (grouping s) as [gs buf].
        destruct (FrameSequencingService.drain_groups _) as [out seq2].
        by destruct (Frame.cleanup _ _ _). }
      rewrite Hf, Hi, Hc, IHinit, IHcur.
      split_and!; [done|done|done|]. apply Hsampling. by rewrite Hc, IHcur.
Qed.

End number_history.

Section number_marks.
Import FrameSyncNumberService.

Lemma insert_number_elem (z n : Z) (l : list Z) :
  z ∈ insert_number n l ↔ z = n ∨ z ∈ l.
Proof.
  induction l as [|m l IH]; simpl; [set_solver|].
  destruct (Z.ltb_spec n m); [set_solver|].
  destruct (Z.eqb_spec n m) as [->|]; [set_solver|].
  rewrite elem_of_cons, IH. set_solver.
Qed.

Lemma sorted_frame_numbers_elem (f : Frame.t) (buf : list Frame.t) :
  f ∈ buf → Frame.frame_number f ∈ sorted_frame_numbers buf.
Proof.
  unfold sorted_frame_numbers. induction buf as [|g buf IH]; simpl; [set_solver|].
  rewrite insert_number_elem. intros [->|H]%elem_of_cons; [by left|right; by apply IH].
Qed.

Lemma count_number_marked cameras buf seen n :
  length (List.filter (has_number n) (marked_after cameras buf seen <$> buf))
  = NumberHistory.count_number n buf.
Proof.
  unfold NumberHistory.count_number. generalize buf at 2 3.
  intros l. induction l as [|f l IH]; simpl; [done|].
  assert (has_number n (marked_after cameras buf seen f) = has_number n f) as ->.
  { unfold marked_after. by destruct (_ && _). }
  destruct (has_number n f); simpl; [f_equal|]; apply IH.
Qed.

Lemma group_step_marked cameras buf seen gs n :
  (group_step cameras (gs, marked_after cameras buf seen <$> buf) n).2
  = marked_after cameras buf (seen ++ [n]) <$> buf.
Proof.
  unfold group_step. rewrite count_number_marked.
  destruct (Nat.eqb_spec (NumberHistory.count_number n buf) cameras) as [Hn|Hn]; simpl.
  - rewrite <- list_fmap_compose. apply list_fmap_ext. intros i f _. simpl.
    unfold marked_after. rewrite existsb_app. simpl. rewrite orb_false_r.
    destruct (has_number n f) eqn:Hf.
    + rewrite orb_true_r. simpl.
      assert (has_number n (if existsb (λ n0, has_number n0 f) seen
                               && (NumberHistory.count_number (Frame.frame_number f) buf
                                   =? cameras)%nat
                            then Frame.set_grouped (Frame.Flag true) f else f) = true) as ->.
      { by destruct (_ && _). }
      unfold has_number in Hf. apply Z.eqb_eq in Hf. rewrite Hf, Hn, Nat.eqb_refl.
      by destruct (_ && _).
    + rewrite orb_false_r.
      assert (has_number n (if existsb (λ n0, has_number n0 f) seen
                               && (NumberHistory.count_number (Frame.frame_number f) buf
                                   =? cameras)%nat
                            then Frame.set_grouped (Frame.Flag true) f else f) = false) as ->.
      { by destruct (_ && _). }
      done.
  - apply list_fmap_ext. intros i f _. unfold marked_after.
    rewrite existsb_app. simpl. rewrite orb_false_r.
    destruct (has_number n f) eqn:Hf; [|by rewrite orb_false_r].
    unfold has_number in Hf. apply Z.eqb_eq in Hf. rewrite Hf.
    destruct (Nat.eqb_spec (NumberHistory.count_number n buf) cameras); [done|].
    by rewrite !andb_false_r.
Qed.

Lemma grouping_marked_after cameras buf seen gs ns :
  (foldl (group_step cameras) (gs, marked_after cameras buf seen <$> buf) ns).2
  = marked_after cameras buf (seen ++ ns) <$> buf.
Proof.
  revert seen gs. induction ns as [|n ns IH]; intros seen gs; cbn [foldl].
  - by rewrite app_nil_r.
  - pose proof (group_step_marked cameras buf seen gs n) as Hstep.
    destruct (group_step cameras (gs, marked_after cameras buf seen <$> buf) n)
      as [gs' buf'].
    simpl in Hstep. subst buf'. rewrite IH. by rewrite <- app_assoc.
Qed.

(** The grouping loop, in closed form. *)
Lemma grouping_marks (s : t) :
  (grouping s).2
  = (λ f, if (NumberHistory.count_number (Frame.frame_number f) (frames_buffer s)
              =? size (initial_camera_data s))%nat
          then Frame.set_grouped (Frame.Flag true) f else f) <$> frames_buffer s.
Proof.
  unfold grouping.
  pose proof (grouping_marked_after (size (initial_camera_data s)) (frames_buffer s)
                [] [] (sorted_frame_numbers (frames_buffer s))) as H.
  assert (marked_after (size (initial_camera_data s)) (frames_buffer s) []
            <$> frames_buffer s = frames_buffer s) as Hid.
  { rewrite <- (list_fmap_id (frames_buffer s)) at 3. by apply list_fmap_ext. }
  rewrite Hid in H. rewrite H. simpl.
  apply list_fmap_ext. intros i f Hf. unfold marked_after.
  assert (existsb (λ n, has_number n f) (sorted_frame_numbers (frames_buffer s)) = true)
    as ->; [|done].
  apply existsb_exists. exists (Frame.frame_number f). split.
  - apply list_elem_of_In, sorted_frame_numbers_elem. by eapply list_elem_of_lookup_2.
  - unfold has_number. apply Z.eqb_refl.
Qed.

End number_marks.

(** X12.  What one pass of the number synchronizer does to the
    buffer.  A buffered frame gets the grouped mark exactly when the
    number of buffered frames bearing its frame number equals the
    number of cameras seen so far, whatever cameras those frames come
    from; all other frames are left as they are.  And in every run,
    the pass ends normally exactly when each buffered frame either had
    the mark already or gets it. *)
Theorem number_pass_marks_by_count
    (config_fps : Z) (retention interval t0 now : Q) (calls : list Run.number_call) :
  let s := Run.number_run (FrameSyncNumberService.init config_fps retention interval t0)
             calls in
  let buf := FrameSyncNumberService.frames_buffer s in
  let complete f :=
    (NumberHistory.count_number (Frame.frame_number f) buf
     =? size (FrameSyncNumberService.initial_camera_data s))%nat in
  (FrameSyncNumberService.grouping s).2
  = (λ f, if complete f then Frame.set_grouped (Frame.Flag true) f else f) <$> buf
  ∧ (raised (FrameSyncNumberService.synchronize now s) = None
     ↔ Forall (λ f, Frame.is_grouped f = true ∨ complete f = true) buf).
Proof.
  intros s buf complete. split; [apply grouping_marks|].
  destruct (number_run_inv (FrameSyncNumberService.init config_fps retention interval t0)
              calls (number_init_inv _ _ _ _)) as [_ Hbuf].
  fold s in Hbuf.
  pose proof (grouping_no_entry_time s Hbuf) as Hg.
  pose proof (cleanup_no_entry_time now (FrameSyncNumberService.retention_time s) _ Hg) as Hc.
  unfold FrameSyncNumberService.synchronize.
  pose proof (grouping_marks s) as Hmarks. fold buf complete in Hmarks.
  destruct (FrameSyncNumberService.grouping s) as [gs buf']. simpl in Hc, Hmarks.
  destruct (FrameSequencingService.drain_groups _) as [out seq2].
  rewrite Hc. subst buf'.
  assert (forallb Frame.is_grouped
            ((λ f, if complete f then Frame.set_grouped (Frame.Flag true) f else f) <$> buf)
          = true
          ↔ Forall (λ f, Frame.is_grouped f = true ∨ complete f = true) buf) as Hiff.
  { rewrite forallb_true_Forall, Forall_fmap. apply Forall_iff. intros f. simpl.
    destruct (complete f); [by split; [right|]|]. split; [by left|by intros [|]]. }
  destruct (forallb _ _); simpl.
  - split; [intros _; by apply Hiff|done].
  - split; [done|]. intros H%Hiff. done.
Qed.

(** X13.  A number synchronizer never uses its sequencer: in every
    run the sequencer stays as it was created, with all its buffers
    empty, and no pass hands any group to the callback, however many
    complete groups the pass has formed. *)
Theorem number_synchronizer_never_uses_sequencer
    (config_fps : Z) (retention interval t0 now : Q) (calls : list Run.number_call) :
  let s := Run.number_run (FrameSyncNumberService.init config_fps retention interval t0)
             calls in
  FrameSyncNumberService.frame_seq s = FrameSequencingService.init interval t0
  ∧ delivered (FrameSyncNumberService.synchronize now s) = []
  ∧ FrameSyncNumberService.frame_seq (after (FrameSyncNumberService.synchronize now s))
    = FrameSequencingService.init interval t0.
Proof.
  cbn zeta.
  assert (∀ s now',
            FrameSyncNumberService.frame_seq s = FrameSequencingService.init interval t0 →
            delivered (FrameSyncNumberService.synchronize now' s) = []
            ∧ FrameSyncNumberService.frame_seq
                (after (FrameSyncNumberService.synchronize now' s))
              = FrameSequencingService.init interval t0) as Hsync.
  { intros s now' Hs. unfold FrameSyncNumberService.synchronize.
    destruct (FrameSyncNumberService.grouping s) as [gs buf]. rewrite Hs. simpl.
    by destruct (Frame.cleanup _ _ _). }
  assert (FrameSyncNumberService.frame_seq
            (Run.number_run (FrameSyncNumberService.init config_fps retention interval t0)
               calls)
          = FrameSequencingService.init interval t0) as Hrun.
  { induction calls as [|c calls IH] using rev_ind; [done|].
    unfold Run.number_run in *. rewrite foldl_snoc.
    destruct c as [n ts f cam msg|now']; simpl; [done|]. by apply Hsync. }
  split; [done|]. by apply Hsync.
Qed.

Section timestamp_groups.
Import FrameSyncTimestampService.

Lemma scan_shape tol cameras item frames g g' :
  scan tol cameras item frames g = Some g' →
  length g' = cameras
  ∧ (NoDup ((λ jf, Frame.camera_id jf.2) <$> g) → NoDup ((λ jf, Frame.camera_id jf.2) <$> g'))
  ∧ ∀ jf, jf ∈ g' → jf ∈ g ∨ jf ∈ frames.
Proof.
  revert g. induction frames as [|[j frame] frames IH]; intros g; simpl; [done|].
  assert (∀ g0, scan tol cameras item frames g0 = Some g' →
                length g' = cameras
                ∧ (NoDup ((λ jf, Frame.camera_id jf.2) <$> g0)
                   → NoDup ((λ jf, Frame.camera_id jf.2) <$> g'))
                ∧ ∀ jf, jf ∈ g' → jf ∈ g0 ∨ jf ∈ (j, frame) :: frames) as IH'.
  { intros g0 H. destruct (IH g0 H) as (H1 & H2 & H3). split_and!; [done..|].
    intros jf Hjf. destruct (H3 jf Hjf); [by left|right; by right]. }
  destruct (Frame.is_grouped frame); [by apply IH'|].
  destruct (within_tolerance tol frame item); [|by apply IH'].
  destruct (existsb _ g) eqn:Hex; [by apply IH'|].
  assert (NoDup ((λ jf, Frame.camera_id jf.2) <$> g)
          → NoDup ((λ jf, Frame.camera_id jf.2) <$> (g ++ [(j, frame)]))) as Hnd.
  { intros Hg. rewrite fmap_app. apply NoDup_app. split_and!; [done| |].
    - intros c Hc [->|[]%elem_of_nil]%elem_of_cons.
      apply list_elem_of_fmap in Hc as (jf & Hjf & Hin).
      apply not_true_iff_false in Hex. apply Hex, existsb_exists.
      exists jf. split; [by apply list_elem_of_In|].
      unfold same_camera. by apply bool_decide_eq_true.
    - simpl. apply NoDup_singleton. }
  destruct (Nat.eqb_spec (length (g ++ [(j, frame)])) cameras) as [Hlen|_].
  - intros [= <-]. split_and!; [done..|].
    intros jf [Hjf|[->|[]%elem_of_nil]%elem_of_cons]%elem_of_app; [by left|right; by left].
  - intros H. destruct (IH _ H) as (H1 & H2 & H3). split_and!; [done|by auto|].
    intros jf Hjf. destruct (H3 jf Hjf) as [[Hg|[->|[]%elem_of_nil]%elem_of_cons]%elem_of_app|Hf].
    + by left.
    + right; by left.
    + right; by right.
Qed.

Lemma indexed_elem (buf : list Frame.t) (jf : nat * Frame.t) :
  jf ∈ indexed buf → jf.2 ∈ buf.
Proof.
  unfold indexed. intros (i & x & -> & Hx)%elem_of_lookup_imap.
  by eapply list_elem_of_lookup_2.
Qed.

Lemma mark_Forall (P : Frame.t → Prop) stamp buf members :
  (∀ f v, P f → P (Frame.set_grouped v f)) →
  Forall P buf → Forall P (mark stamp buf members).
Proof.
  intros HP. unfold mark. revert buf.
  induction members as [|j members IH]; intros buf Hbuf; simpl; [done|].
  apply IH. apply Forall_alter; [done|]. intros f _. apply HP.
Qed.

(** A predicate on frames that marking does not disturb holds of the
    buffer after the grouping loop if it held before, and then of every
    member of every group the loop has submitted. *)
Lemma grouping_preserves (P : Frame.t → Prop) (s : t) :
  (∀ f v, P f → P (Frame.set_grouped v f)) →
  Forall P (frames_buffer s) →
  Forall P (grouping s).1
  ∧ ∃ new,
      FrameSequencingService.grouped_frames_buffer (grouping s).2
      = FrameSequencingService.grouped_frames_buffer (frame_seq s) ++ new
      ∧ Forall (Forall P) new.
Proof.
  intros HP Hbuf. unfold grouping.
  assert (∀ l acc,
            Forall P acc.1 →
            Forall P (foldl (outer_step (tolerance s) (size (initial_camera_data s))) acc l).1
            ∧ ∃ new,
                FrameSequencingService.grouped_frames_buffer
                  (foldl (outer_step (tolerance s) (size (initial_camera_data s))) acc l).2
                = FrameSequencingService.grouped_frames_buffer acc.2 ++ new
                ∧ Forall (Forall P) new) as H.
  { induction l as [|i l IH]; intros acc Hacc; cbn [foldl].
    - split; [done|]. exists []. by rewrite app_nil_r.
    - destruct acc as [buf sq]. unfold outer_step at 2 4. simpl in Hacc. simpl.
      destruct (buf !! i) as [item|] eqn:Hi; [|by apply IH].
      destruct (Frame.is_grouped item); [by apply IH|].
      destruct (scan _ _ _ _ _) as [g|] eqn:Hscan; [|by apply IH].
      destruct (IH (mark (Frame.frame_timestamp item) buf g.*1,
                    FrameSequencingService.collect_group
                      (Frame.set_grouped (Frame.Stamp (Frame.frame_timestamp item)) <$> g.*2)
                      sq)) as [H1 (new & Hnew & Hall)].
      { by apply mark_Forall. }
      split; [done|]. eexists. split.
      + rewrite Hnew. simpl. by rewrite <- app_assoc.
      + constructor; [|done].
        apply scan_shape in Hscan as (_ & _ & Hmem).
        apply Forall_fmap, Forall_fmap, Forall_forall. intros jf Hjf. simpl. apply HP.
        rewrite Forall_forall in Hacc. apply Hacc.
        destruct (Hmem jf Hjf) as [[->|[]%elem_of_nil]%elem_of_cons|Hin].
        * simpl. by eapply list_elem_of_lookup_2.
        * by apply indexed_elem. }
  by apply (H _ (frames_buffer s, frame_seq s)).
Qed.



End timestamp_groups.

Section timestamp_runs.
Import FrameSyncTimestampService.

Lemma timestamp_run_snoc s calls c :
  Run.timestamp_run s (calls ++ [c]) = Run.timestamp_step (Run.timestamp_run s calls) c.
Proof. unfold Run.timestamp_run. by rewrite foldl_snoc. Qed.

Lemma timestamp_synchronize_tables now s :
  initial_camera_data (after (synchronize now s)) = initial_camera_data s
  ∧ current_camera_data (after (synchronize now s)) = current_camera_data s
  ∧ fps (after (synchronize now s)) = fps s
  ∧ tolerance (after (synchronize now s)) = tolerance s
  ∧ retention_time (after (synchronize now s)) = retention_time s
  ∧ latency_threshold (after (synchronize now s)) = latency_threshold s.
Proof.
  unfold synchronize. destruct (grouping s) as [buf seq0].
  destruct (FrameSequencingService.drain_groups _) as [out seq2].
  by destruct (Frame.cleanup _ _ _).
Qed.




End timestamp_runs.






Section timestamp_settings.
Import FrameSyncTimestampService.

Lemma inverse_fps_nonzero (f : Z) : f ≠ 0%Z → Py.eqb (1 / inject_Z f) 0 = false.
Proof. by destruct f. Qed.

Lemma timestamp_synchronize_empty now s :
  frames_buffer s = [] → frames_buffer (after (synchronize now s)) = [].
Proof.
  intros Hs.
  destruct (grouping_preserves (λ _, False) s) as [Hbuf _]; [done|by rewrite Hs|].
  unfold synchronize. destruct (grouping s) as [buf seq0]. simpl in Hbuf.
  destruct buf as [|f buf]; [|by apply Forall_cons in Hbuf as [[] _]].
  by destruct (FrameSequencingService.drain_groups _).
Qed.

Lemma collect_outcome config_fps now n ts f cam msg s :
  tolerance_settled config_fps s →
  match collect now n ts f cam msg s with
  | Py.Raise e =>
      e = Py.ZeroDivisionError ∧ initial_camera_data s = ∅ ∧ fps s = 0%Z ∧ f = 0%Z
  | Py.Ok s' =>
      tolerance_settled config_fps s'
      ∧ initial_camera_data s' ≠ ∅
      ∧ (initial_camera_data s ≠ ∅ → fps s' = fps s ∧ tolerance s' = tolerance s)
  end.
Proof.
  intros Hs. unfold collect.
  assert (∀ (m : gmap string (Q * Q)) v,
            match m !! cam with None => <[cam := v]> m | Some _ => m end ≠ ∅) as Hne.
  { intros m v. destruct (m !! cam) eqn:Hm.
    - intros ->. by rewrite lookup_empty in Hm.
    - apply insert_non_empty. }
  destruct Hs as [(Hnone & Htol & Hbuf & Hfps)|(Hsome & Hfps & Htol)].
  - rewrite Htol. change (Py.eqb 0 0) with true. cbn iota.
    destruct (Z.eqb_spec (fps s) 0) as [Hz|Hz].
    + destruct (Z.eqb_spec f 0) as [Hf|Hf]; simpl; [done|].
      destruct (default _ _) as [d st]. split_and!; [|apply Hne|done].
      right. simpl. split_and!; [apply Hne|done|done].
    + destruct (Z.eqb_spec (fps s) 0) as [|_]; [done|]. simpl.
      destruct (default _ _) as [d st]. split_and!; [|apply Hne|done].
      right. simpl. split_and!; [apply Hne|done|done].
  - rewrite Htol, (inverse_fps_nonzero _ Hfps).
    destruct (Z.eqb_spec (fps s) 0) as [|_]; [done|]. simpl.
    destruct (default _ _) as [d st]. split_and!; [|apply Hne|done].
    right. simpl. split_and!; [apply Hne|done|done].
Qed.

Lemma timestamp_run_settled config_fps s calls :
  tolerance_settled config_fps s → tolerance_settled config_fps (Run.timestamp_run s calls).
Proof.
  revert s. induction calls as [|c calls IH]; intros s Hs; simpl; [done|].
  apply IH. destruct c as [now n ts f cam msg|now]; simpl.
  - pose proof (collect_outcome config_fps now n ts f cam msg s Hs) as H.
    destruct (collect now n ts f cam msg s); [apply H|done].
  - destruct (timestamp_synchronize_tables now s) as (Hi & _ & Hf & Ht & _).
    unfold tolerance_settled. rewrite Hi, Hf, Ht.
    destruct Hs as [(? & ? & Hbuf & ?)|?]; [left|by right].
    split_and!; [done..| |done]. by apply timestamp_synchronize_empty.
Qed.

End timestamp_settings.

(** X16.  The tolerance of a timestamp synchronizer is settled by the
    first frame it collects and never changes afterwards.  In every
    run: while no camera has been seen the tolerance is 0 and the
    buffer is empty; once a camera has been seen the fps is non-zero
    and the tolerance is 1 / fps; a [collect] raises only
    [ZeroDivisionError], and only when no camera has been seen yet and
    neither the configuration nor the message gives an fps; and a
    [collect] after the first one leaves fps and tolerance alone,
    whatever fps its message reports. *)
Theorem timestamp_tolerance_settled_once
    (config_fps : Z) (retention latency interval t0 : Q)
    (calls : list Run.timestamp_call)
    (now : Q) (frame_number : Z) (frame_timestamp : Q) (message_fps : Z)
    (camera_id : string) (message : option payload) :
  let s := Run.timestamp_run
             (FrameSyncTimestampService.init config_fps retention latency interval t0)
             calls in
  tolerance_settled config_fps s
  ∧ match FrameSyncTimestampService.collect now frame_number frame_timestamp message_fps
            camera_id message s with
    | Py.Raise e =>
        e = Py.ZeroDivisionError
        ∧ FrameSyncTimestampService.initial_camera_data s = ∅
        ∧ config_fps = 0%Z ∧ message_fps = 0%Z
    | Py.Ok s' =>
        FrameSyncTimestampService.fps s' ≠ 0%Z
        ∧ FrameSyncTimestampService.tolerance s'
          = (1 / inject_Z (FrameSyncTimestampService.fps s'))%Q
        ∧ (FrameSyncTimestampService.initial_camera_data s ≠ ∅ →
           FrameSyncTimestampService.fps s' = FrameSyncTimestampService.fps s
           ∧ FrameSyncTimestampService.tolerance s' = FrameSyncTimestampService.tolerance s)
    end.
Proof.
  intros s.
  assert (tolerance_settled config_fps s) as Hs.
  { apply timestamp_run_settled. left. by split_and!. }
  split; [done|]. clearbody s.
  pose proof (collect_outcome config_fps now frame_number frame_timestamp message_fps
                camera_id message s Hs) as H.
  destruct (FrameSyncTimestampService.collect _ _ _ _ _ _ s) as [s'|e].
  - destruct H as ([(Hnone & _)|(_ & Hfps & Htol)] & Hne & Hkeep); [done|].
    by split_and!.
  - destruct H as (-> & Hnone & Hz & ->). split_and!; [done..| |done].
    destruct Hs as [(_ & _ & _ & <-)|(Hsome & _)]; done.
Qed.

(** X17.  The first frame of a camera is never told to wait: right
    after the [collect] that first sees a camera, [sampling] for that
    camera returns a skip count, which is not negative. *)
Theorem timestamp_first_frame_never_waits
    (now : Q) (frame_number : Z) (frame_timestamp : Q) (message_fps : Z)
    (camera_id : string) (message : option payload)
    (s s' : FrameSyncTimestampService.t) :
  FrameSyncTimestampService.initial_camera_data s !! camera_id = None →
  FrameSyncTimestampService.collect now frame_number frame_timestamp message_fps
    camera_id message s = Py.Ok s' →
  ∃ k, FrameSyncTimestampService.sampling camera_id s' = Py.Ok (Frames k, true)
       ∧ (0 <= k)%Z.
Proof.
  intros Hnew. unfold FrameSyncTimestampService.collect. rewrite Hnew.
  destruct (if Py.eqb _ _ then _ else _) as [tol|e]; simpl; [|done].
  rewrite lookup_insert_eq. simpl. intros [= <-].
  unfold FrameSyncTimestampService.sampling. simpl.
  rewrite !lookup_insert_eq. simpl.
  set (d := (now - frame_timestamp)%Q).
  set (initial_delay := if Py.eqb (FrameSyncTimestampService.latency_threshold s) 0
                        then d
                        else Py.min2 (FrameSyncTimestampService.latency_threshold s) d).
  assert (0 <= d - initial_delay)%Q as Hdelay.
  { subst initial_delay. unfold Py.min2.
    destruct (Py.eqb _ 0); [|destruct (Py.ltb d _) eqn:Hlt].
    - assert (d - d == 0)%Q as -> by ring. apply Qle_refl.
    - assert (d - d == 0)%Q as -> by ring. apply Qle_refl.
    - apply not_true_iff_false in Hlt.
      assert (FrameSyncTimestampService.latency_threshold s <= d)%Q as Hle.
      { apply Qnot_lt_le. intros H%ltb_lt. done. }
      unfold Qminus. rewrite <- Qle_minus_iff. done. }
  destruct (Py.ltb (d - initial_delay) 0) eqn:Hlt.
  - apply ltb_lt in Hlt. exfalso. by apply (Qlt_not_le _ _ Hlt).
  - eexists. split; [done|]. lia.
Qed.

(** The theorem on a camera that is first seen five seconds late, with
    a latency threshold of two seconds, at fps 4. *)
Lemma timestamp_first_frame_never_waits_example :
  ∃ k, FrameSyncTimestampService.sampling "A"
         (Run.timestamp_run (FrameSyncTimestampService.init 4 60 2 0 0)
            [Run.TCollect 15 1 10 4 "A" None])
       = Py.Ok (Frames k, true)
       ∧ (0 <= k)%Z.
Proof.
  apply (timestamp_first_frame_never_waits 15 1 10 4 "A" None
           (FrameSyncTimestampService.init 4 60 2 0 0)); reflexivity.
Defined.

(** X18.  Whatever synchronizer is behind the facade, what [sampling]
    returns is well formed: a count of frames comes with the flag
    [True] and is not negative, a number of seconds comes with the flag
    [False] and is not negative. *)
Theorem sampling_amount_shape
    (camera_id : string) (svc : FrameSyncService.t) (a : amount) (logic : bool) :
  FrameSyncService.sampling camera_id svc = Py.Ok (a, logic) →
  match a with
  | Frames k => logic = true ∧ (0 <= k)%Z
  | Seconds q => logic = false ∧ (0 <= q)%Q
  end.
Proof.
  destruct svc as [s|s]; cbn [FrameSyncService.sampling].
  - unfold FrameSyncNumberService.sampling.
    destruct (_ !! _) as [cd|]; [|done].
    destruct (_ <? _)%Z.
    + destruct (_ =? _)%Z; [done|]. intros H. injection H as <- <-.
      split; [reflexivity|]. unfold Qle. simpl. lia.
    + intros H. injection H as <- <-. split; [reflexivity|lia].
  - unfold FrameSyncTimestampService.sampling.
    destruct (_ !! _) as [i|]; [|done].
    destruct (_ ≫= _) as [delay|]; [|done].
    destruct (Py.ltb delay 0).
    + intros H. injection H as <- <-. split; [reflexivity|apply Qabs_nonneg].
    + intros H. injection H as <- <-. split; [reflexivity|lia].
Qed.

(** The theorem on scenario E5. *)
Lemma sampling_amount_shape_E5 :
  false = false ∧ (0 <= Qabs (inject_Z (30 - 45) / inject_Z 30))%Q.
Proof.
  apply (sampling_amount_shape "A" (FrameSyncService.ByNumber Scenario.rate_control)
           (Seconds (Qabs (inject_Z (30 - 45) / inject_Z 30))) false).
  vm_compute. reflexivity.
Defined.

(** ** FrameSyncMapper *)






(** ** MessageConsumer: offsets and delivery *)

Section consumer_runs.
Import MessageConsumer.

Ltac unfold_pass :=
  unfold iteration, body, synchronization_part, process_cv_module,
    process_frame_synchronization, single_camera_synchronization,
    sequencing_worker, synchronize_worker, consumer_commit, consumer_seek_to_end,
    emit, set_frame_synchronization, set_frame_sequencing, set_actual_message_count,
    set_skip_count, set_backlog_time_prev, set_seq_check_time, set_seek_to_end,
    set_position, set_committed, lift, leave, modify, get;
  unfold mbind, mret, M_bind, M_ret.

(** Where a pass leaves the two offsets. *)
Lemma iteration_offsets (c : MessageConsumer.t) (end_offset : nat) (r : record) (st : loop) :
  let '(st', e) := iteration c end_offset r st in
  match e with
  | Committed => position st' = S (position st) ∧ committed st' = S (position st)
  | SeekBreak => position st' = end_offset ∧ committed st' = S (position st)
  | Skipped | Filtered => position st' = S (position st) ∧ committed st' = committed st
  | Raised _ =>
      (position st' = position st ∨ position st' = S (position st))
      ∧ committed st' = committed st
  end.
Proof.
  unfold_pass. destruct st as [fs fq amc sk btp sct ste pos cmt tr]. simpl.
  repeat (case_match; simplify_eq/=); auto.
Qed.

Lemma run_offsets (c : MessageConsumer.t) (pending : list record) (st : loop) :
  (committed st ≤ position st)%nat →
  let '(st', status) := run c pending st in
  (committed st ≤ committed st')%nat
  ∧ (committed st' ≤ position st')%nat
  ∧ (position st' ≤ position st + length pending)%nat
  ∧ (status = Waiting → position st' = (position st + length pending)%nat).
Proof.
  revert st. induction pending as [|r rest IH]; intros st Hst.
  { simpl. split_and!; [done|done|lia|lia]. }
  cbn [run].
  pose proof (iteration_offsets c (position st + length (r :: rest)) r st) as Hpass.
  destruct (iteration c (position st + length (r :: rest)) r st) as [st1 e].
  cbn [length] in *.
  destruct e as [| | | |e].
  - destruct Hpass as [Hp Hc]. specialize (IH st1 ltac:(lia)).
    destruct (run c rest st1) as [st' status]. rewrite Hp, Hc in IH.
    split_and!; [lia|lia|lia|]. intros Hw. destruct IH as (_ & _ & _ & IH). rewrite IH; [lia|done].
  - destruct Hpass as [Hp Hc]. specialize (IH st1 ltac:(lia)).
    destruct (run c rest st1) as [st' status]. rewrite Hp, Hc in IH.
    split_and!; [lia|lia|lia|]. intros Hw. destruct IH as (_ & _ & _ & IH). rewrite IH; [lia|done].
  - destruct Hpass as [Hp Hc]. specialize (IH st1 ltac:(lia)).
    destruct (run c rest st1) as [st' status]. rewrite Hp, Hc in IH.
    split_and!; [lia|lia|lia|]. intros Hw. destruct IH as (_ & _ & _ & IH). rewrite IH; [lia|done].
  - destruct Hpass as [Hp Hc]. split_and!; [lia|lia|lia|intros _; lia].
  - destruct Hpass as [Hp Hc]. destruct st1; simpl in *. split_and!; [lia|lia|lia|done].
Qed.

(** X20.  However [start] ends on a topic, the committed offset never
    lies beyond the consumer's position and the position never beyond
    the end of the topic; and unless an exception ended [start], the
    consumer stands at the end of the topic: every record was consumed
    or was left behind by a seek to the end. *)
Theorem start_offsets (c : MessageConsumer.t) (now : Q) (topic : list record) :
  let '(st, status) := start c now topic in
  (committed st ≤ position st)%nat
  ∧ (position st ≤ length topic)%nat
  ∧ (status = Waiting → position st = length topic).
Proof.
  unfold start.
  pose proof (run_offsets c topic (start_state now) ltac:(simpl; lia)) as H.
  destruct (run c topic (start_state now)) as [st status].
  simpl in H. destruct H as (_ & H1 & H2 & H3). done.
Qed.

End consumer_runs.

Section consumer_modes.
Import MessageConsumer.

Ltac unfold_pass :=
  unfold iteration, body, synchronization_part, process_cv_module,
    process_frame_synchronization, single_camera_synchronization,
    sequencing_worker, synchronize_worker, consumer_commit, consumer_seek_to_end,
    emit, set_frame_synchronization, set_frame_sequencing, set_actual_message_count,
    set_skip_count, set_backlog_time_prev, set_seq_check_time, set_seek_to_end,
    set_position, set_committed, lift, leave, modify, get;
  unfold mbind, mret, M_bind, M_ret.

Lemma drain_worker_events (c : MessageConsumer.t) temp :
  Forall sequencing_event (drain_worker c temp).1.
Proof.
  induction temp as [|e rest IH]; simpl; [done|].
  destruct (callback_returns c _); [|done].
  destruct (drain_worker c rest) as [evs rest']. simpl in *. by constructor.
Qed.

(** X21.  Under a configuration with sequencing enabled the loop body
    takes the sequencing branch on every message: the pass ends at the
    commit in its last line, at the key filter or in an exception,
    never in a skip or a seek to the end; the only events it adds are
    callbacks on sequenced messages and the commit; the skip count,
    the message count, the backlog time and the seek flag stay as they
    were, so the synchronizer is fed by [collect] but never asked to
    sample or to synchronize; and a message whose frame metadata
    carries no timestamp never reaches the commit. *)
Theorem sequencing_bypasses_synchronization
    (c : MessageConsumer.t) (config : FrameSyncConfiguration.t)
    (end_offset : nat) (r : record) (st : loop) :
  frame_sync_config c = Some config →
  FrameSyncConfiguration.enable_sequencing config = true →
  let '(st', e) := iteration c end_offset r st in
  match e with
  | Committed =>
      ∃ message ts, r_value r = Py.Ok message ∧ m_metadata_timestamp message = Some ts
  | Filtered | Raised _ => True
  | Skipped | SeekBreak => False
  end
  ∧ skip_count st' = skip_count st
  ∧ actual_message_count st' = actual_message_count st
  ∧ backlog_time_prev st' = backlog_time_prev st
  ∧ seek_to_end st' = seek_to_end st
  ∧ ∃ evs, trace st' = trace st ++ evs ∧ Forall sequencing_event evs.
Proof.
  intros Hconfig Henable. unfold_pass.
  destruct st as [fs fq amc sk btp sct ste pos cmt tr]. simpl. rewrite Hconfig.
  destruct (r_value r) as [message|x] eqn:Hvalue; simpl;
    [|split_and!; try done; exists []; by rewrite app_nil_r].
  destruct (check_key_condition (key c) r) as [[]|x]; simpl;
    try (split_and!; try done; exists []; by rewrite app_nil_r).
  rewrite Henable.
  destruct (m_metadata_timestamp message) as [ts|] eqn:Hts.
  - repeat (case_match; simplify_eq/=);
      try (split_and!; try done; exists []; by rewrite app_nil_r).
    all: split_and!; try done; try by eexists _, _.
    all: try (eexists; split; [by rewrite <- app_assoc|]).
    all: try (eexists; split; [done|]).
    all: repeat match goal with
         | H : drain_worker ?c ?t = (?l, _) |- _ =>
             let Hev := fresh in
             pose proof (drain_worker_events c t) as Hev; rewrite H in Hev; clear H
         end; simpl in *.
    all: try (apply Forall_app; split); try done; by repeat constructor.
  - repeat (case_match; simplify_eq/=);
      split_and!; try done; exists []; by rewrite app_nil_r.
Qed.

(** The theorem on the first record of a consumer configured as the
    mapper configures it by default: the message is collected, no
    callback runs yet, and the offset is committed. *)
Lemma sequencing_bypasses_synchronization_example :
  let '(st', e) :=
    iteration SequencingScenario.consumer 1 SequencingScenario.stamped_record
      (start_state 0) in
  match e with
  | Committed =>
      ∃ message ts,
        r_value SequencingScenario.stamped_record = Py.Ok message
        ∧ m_metadata_timestamp message = Some ts
  | Filtered | Raised _ => True
  | Skipped | SeekBreak => False
  end
  ∧ skip_count st' = skip_count (start_state 0)
  ∧ actual_message_count st' = actual_message_count (start_state 0)
  ∧ backlog_time_prev st' = backlog_time_prev (start_state 0)
  ∧ seek_to_end st' = seek_to_end (start_state 0)
  ∧ ∃ evs, trace st' = trace (start_state 0) ++ evs ∧ Forall sequencing_event evs.
Proof.
  apply (sequencing_bypasses_synchronization SequencingScenario.consumer
           SequencingScenario.config 1 SequencingScenario.stamped_record (start_state 0));
    reflexivity.
Defined.

End consumer_modes.

Section consumer_plain.
Import MessageConsumer.

Ltac unfold_pass :=
  unfold iteration, body, synchronization_part, process_cv_module,
    process_frame_synchronization, single_camera_synchronization,
    sequencing_worker, synchronize_worker, consumer_commit, consumer_seek_to_end,
    emit, set_frame_synchronization, set_frame_sequencing, set_actual_message_count,
    set_skip_count, set_backlog_time_prev, set_seq_check_time, set_seek_to_end,
    set_position, set_committed, lift, leave, modify, get;
  unfold mbind, mret, M_bind, M_ret.





End consumer_plain.

Section consumer_unify.
Import MessageConsumer.

Ltac unfold_pass :=
  unfold iteration, body, synchronization_part, process_cv_module,
    process_frame_synchronization, single_camera_synchronization,
    sequencing_worker, synchronize_worker, consumer_commit, consumer_seek_to_end,
    emit, set_frame_synchronization, set_frame_sequencing, set_actual_message_count,
    set_skip_count, set_backlog_time_prev, set_seq_check_time, set_seek_to_end,
    set_position, set_committed, lift, leave, modify, get;
  unfold mbind, mret, M_bind, M_ret.

(** X23.  Under a configuration with [unify] set and sequencing off,
    the callback never receives a single message: the only events a
    pass adds are callbacks on groups, commits and seeks to the end,
    and no pass sleeps or sets a skip count.  When in addition no
    synchronization type is configured, a message that reaches the
    last line of the loop body is committed without any callback at
    all. *)
Theorem unify_calls_back_groups_only
    (c : MessageConsumer.t) (config : FrameSyncConfiguration.t)
    (end_offset : nat) (r : record) (st : loop) :
  frame_sync_config c = Some config →
  FrameSyncConfiguration.unify config = true →
  FrameSyncConfiguration.enable_sequencing config = false →
  frame_sequencing st = None →
  let '(st', e) := iteration c end_offset r st in
  frame_sequencing st' = None
  ∧ (e ≠ Skipped → skip_count st' = skip_count st)
  ∧ ∃ evs,
      trace st' = trace st ++ evs
      ∧ Forall unify_event evs
      ∧ (e = Committed →
         FrameSyncConfiguration.frame_sync_type config = None →
         frame_synchronization st = None →
         evs = [Commit (S (position st))]).
Proof.
  intros Hconfig Hunify Hsequencing Hseq. unfold_pass.
  destruct st as [fs fq amc sk btp sct ste pos cmt tr]. simpl in *. subst fq.
  rewrite Hconfig.
  destruct (r_value r) as [message|x] eqn:Hvalue; simpl;
    [|split_and!; try done; exists []; by rewrite app_nil_r].
  destruct (check_key_condition (key c) r) as [[]|x]; simpl;
    try (split_and!; try done; exists []; by rewrite app_nil_r).
  rewrite Hsequencing, Hunify. cbn [negb]. rewrite ?andb_false_r.
  repeat (case_match; simplify_eq/=);
    try (split_and!; try done; exists []; by rewrite app_nil_r).
  all: split_and!; try done.
  all: try (eexists; split; [by rewrite <- ?app_assoc|]).
  all: split; [try (apply Forall_app; split); try apply Forall_fmap;
               try (by repeat constructor); try (by apply Forall_true)|try done].
Qed.

(** The theorem on the first record of a consumer that unifies without
    a synchronization type: the message is committed and no callback
    runs. *)
Lemma unify_calls_back_groups_only_example :
  let '(st', e) :=
    iteration UnifyScenario.consumer 1 (ConsumerScenario.frame_record 1 0) (start_state 0) in
  frame_sequencing st' = None
  ∧ (e ≠ Skipped → skip_count st' = skip_count (start_state 0))
  ∧ ∃ evs,
      trace st' = trace (start_state 0) ++ evs
      ∧ Forall unify_event evs
      ∧ (e = Committed →
         FrameSyncConfiguration.frame_sync_type UnifyScenario.config = None →
         frame_synchronization (start_state 0) = None →
         evs = [Commit (S (position (start_state 0)))]).
Proof.
  apply (unify_calls_back_groups_only UnifyScenario.consumer UnifyScenario.config 1
           (ConsumerScenario.frame_record 1 0) (start_state 0)); reflexivity.
Defined.

End consumer_unify.

Section consumer_seek.
Import MessageConsumer.

Ltac unfold_pass :=
  unfold iteration, body, synchronization_part, process_cv_module,
    process_frame_synchronization, single_camera_synchronization,
    sequencing_worker, synchronize_worker, consumer_commit, consumer_seek_to_end,
    emit, set_frame_synchronization, set_frame_sequencing, set_actual_message_count,
    set_skip_count, set_backlog_time_prev, set_seq_check_time, set_seek_to_end,
    set_position, set_committed, lift, leave, modify, get;
  unfold mbind, mret, M_bind, M_ret.

(** X24.  When the loop seeks to the end.  A pass leaves the loop by a
    seek only under a configuration without sequencing, and then
    either because the initial delay is to be ignored and no seek has
    happened yet, which sets the seek flag, or because [seek_to_end] is
    configured; the message was handed to the callback first unless
    [unify] is set, and the pass ends with the commit of the message's
    offset followed by the seek.  The seek flag, once set, stays set,
    so the seek for the initial delay happens at most once.  And under
    a configuration with [seek_to_end] and without sequencing, no pass
    that has a synchronizer reaches the commit in the last line: every
    message handled is followed by a seek. *)
Theorem seek_to_end_discipline
    (c : MessageConsumer.t) (end_offset : nat) (r : record) (st : loop) :
  let '(st', e) := iteration c end_offset r st in
  (seek_to_end st = true → seek_to_end st' = true)
  ∧ (e = SeekBreak →
     ∃ config message,
       frame_sync_config c = Some config
       ∧ r_value r = Py.Ok message
       ∧ FrameSyncConfiguration.enable_sequencing config = false
       ∧ ((FrameSyncConfiguration.ignore_initial_delay config = true
           ∧ seek_to_end st = false ∧ seek_to_end st' = true)
          ∨ (FrameSyncConfiguration.seek_to_end config = true
             ∧ seek_to_end st' = seek_to_end st))
       ∧ trace st'
         = trace st
           ++ (if FrameSyncConfiguration.unify config then [] else [Callback message])
           ++ [Commit (S (position st)); SeekToEnd end_offset])
  ∧ (e = Committed →
     ∀ config,
       frame_sync_config c = Some config →
       FrameSyncConfiguration.seek_to_end config = true →
       FrameSyncConfiguration.enable_sequencing config = false →
       frame_sequencing st = None →
       frame_synchronization st' = None).
Proof.
  unfold_pass. destruct st as [fs fq amc sk btp sct ste pos cmt tr]. simpl.
  repeat (case_match; simplify_eq/=); split_and!; try done.
  all: try (intros _;
            match goal with
            | |- ∃ config message, Some ?t = Some config ∧ _ =>
                exists t; eexists; split; [reflexivity|]; split; [reflexivity|];
                destruct (FrameSyncConfiguration.unify t) eqn:?,
                  (FrameSyncConfiguration.ignore_initial_delay t) eqn:?,
                  (FrameSyncConfiguration.seek_to_end t) eqn:?,
                  (FrameSyncConfiguration.enable_sequencing t) eqn:?;
                simplify_eq/=;
                repeat match goal with b : bool |- _ => destruct b; simplify_eq/= end;
                rewrite <- ?app_assoc; split_and!; auto
            end).
  all: try (intros _ config' ? ? ? ?; simplify_eq; congruence).
Qed.

End consumer_seek.
